(** * evlc: a command-line controller for [cvlc]

    Shallow embedding of [src/evlc.py].  The script keeps two module-level
    globals ([DEBUG_MODE], [vlc_process]) and talks to the operating
    system through four calls: [subprocess.Popen], [subprocess.check_output],
    [os.kill] and [Popen.poll].  The embedding threads the globals and a
    chronological trace of the observable actions through a small state
    monad; the operating system is an oracle that answers each call from
    the trace of everything the script did before it. *)

From Stdlib Require Import String Ascii List ZArith Lia Bool.
From Stdlib Require Import DecimalString DecimalPos DecimalZ.
Import ListNotations.
Local Open Scope string_scope.
Local Open Scope Z_scope.

(** ** Python strings (ASCII fragment) *)

Module PyStr.

Definition LF : ascii := "010"%char.
Definition nl : string := String LF "".

(** [str.isspace] on the ASCII range: TAB, LF, VT, FF, CR, FS, GS, RS, US
    and the space. *)
Definition isspace (c : ascii) : bool :=
  let n := nat_of_ascii c in
  ((9 <=? n) && (n <=? 13) || (28 <=? n) && (n <=? 32))%nat.

(** The whitespace that [int()] skips around an ASCII literal: TAB, LF, VT,
    FF, CR and the space, without the four separators FS to US. *)
Definition isspace_c (c : ascii) : bool :=
  let n := nat_of_ascii c in
  ((9 <=? n) && (n <=? 13) || (n =? 32))%nat.

Definition isdigit (c : ascii) : bool :=
  let n := nat_of_ascii c in ((48 <=? n) && (n <=? 57))%nat.

Fixpoint lstrip_by (sp : ascii -> bool) (s : string) : string :=
  match s with
  | String c s' => if sp c then lstrip_by sp s' else s
  | EmptyString => EmptyString
  end.

(** Drops the longest suffix made of [sp] characters. *)
Fixpoint rstrip_by (sp : ascii -> bool) (s : string) : string :=
  match s with
  | EmptyString => EmptyString
  | String c s' =>
      match rstrip_by sp s' with
      | EmptyString => if sp c then EmptyString else String c EmptyString
      | r => String c r
      end
  end.

(** [s.strip()] *)
Definition strip (s : string) : string := rstrip_by isspace (lstrip_by isspace s).

(** [s.split(sep)] for a one-character separator: never returns the empty
    list, [''.split(sep)] is [['']]. *)
Fixpoint split (sep : ascii) (s : string) : list string :=
  match s with
  | EmptyString => [EmptyString]
  | String c s' =>
      if Ascii.eqb c sep then EmptyString :: split sep s'
      else match split sep s' with
           | w :: ws => String c w :: ws
           | [] => [String c EmptyString]
           end
  end.

(** [sep.join(parts)] *)
Definition join (sep : string) (parts : list string) : string :=
  String.concat sep parts.

(** [str(n)] for an [int]. *)
Definition str_of_int (z : Z) : string := NilZero.string_of_int (Z.to_int z).

(** Truth value of a string: non-empty. *)
Definition truthy (s : string) : bool :=
  match s with EmptyString => false | _ => true end.

Definition digit_val (c : ascii) : Z := Z.of_nat (nat_of_ascii c) - 48.

(** The digit part of a base-10 literal, read left to right: digits with
    single underscores between them.  [prev] tells whether the previous
    character was a digit (an underscore is legal only then, and the
    literal may not end on one). *)
Fixpoint digits (s : string) (prev : bool) (acc : Z) : option Z :=
  match s with
  | EmptyString => if prev then Some acc else None
  | String c s' =>
      if isdigit c then digits s' true (10 * acc + digit_val c)
      else if Ascii.eqb c "_"%char then
             if prev then digits s' false acc else None
           else None
  end.

(** [int(s)] on ASCII text: surrounding whitespace is ignored, then an
    optional sign, then the digits.  [None] stands for [ValueError].
    (The interpreter's cap on the number of digits of a literal,
    4300 by default since Python 3.11, is not modelled: the texts parsed
    here are process ids and counts.) *)
Definition int (s : string) : option Z :=
  match rstrip_by isspace_c (lstrip_by isspace_c s) with
  | String "-" d => option_map Z.opp (digits d false 0)
  | String "+" d => digits d false 0
  | d => digits d false 0
  end.

Definition hex_digit (n : nat) : ascii :=
  if (n <? 10)%nat then ascii_of_nat (48 + n) else ascii_of_nat (87 + n).

Definition QUOTE : ascii := "'"%char.
Definition DQUOTE : ascii := "034"%char.
Definition BACKSLASH : ascii := "\"%char.

Fixpoint mem (c : ascii) (s : string) : bool :=
  match s with
  | EmptyString => false
  | String d s' => Ascii.eqb c d || mem c s'
  end.

(** Body of [repr(s)] with quote character [q]. *)
Fixpoint repr_body (q : ascii) (s : string) : string :=
  match s with
  | EmptyString => EmptyString
  | String c s' =>
      let n := nat_of_ascii c in
      let rest := repr_body q s' in
      if Ascii.eqb c q || Ascii.eqb c BACKSLASH then String BACKSLASH (String c rest)
      else if (n =? 9)%nat then String BACKSLASH (String "t" rest)
      else if (n =? 10)%nat then String BACKSLASH (String "n" rest)
      else if (n =? 13)%nat then String BACKSLASH (String "r" rest)
      else if (n <? 32)%nat || (n =? 127)%nat then
        String BACKSLASH (String "x" (String (hex_digit (n / 16))
                                        (String (hex_digit (n mod 16)) rest)))
      else String c rest
  end.

(** [repr(s)]: single quotes, unless [s] has a single quote and no double
    quote. *)
Definition repr (s : string) : string :=
  let q := if mem QUOTE s && negb (mem DQUOTE s) then DQUOTE else QUOTE in
  String q (repr_body q s ++ String q EmptyString).

(** The text of the [ValueError] that [int(s)] raises: the message is
    formatted with [%.200R], which keeps the first 200 characters of the
    [repr]. *)
Definition int_error (s : string) : string :=
  "invalid literal for int() with base 10: " ++ substring 0 200 (repr s).

End PyStr.

(** ** The operating system as seen by the script *)

(** What the script does that the outside can observe, in order. *)
Inductive event : Type :=
| Print (msg : string)                       (* print(msg) *)
| Spawn (command : list string)              (* subprocess.Popen(command, stdout=DEVNULL,
                                                stderr=DEVNULL, preexec_fn=os.setsid) *)
| Sleep                                      (* time.sleep(0.5) *)
| CheckOutput (args : list string) (stderr_devnull : bool)
                                             (* subprocess.check_output(args[, stderr=DEVNULL]) *)
| Kill (pid : Z)                             (* os.kill(pid, signal.SIGTERM) *)
| Wait (pid : Z).                            (* the waitpid of Popen.poll() *)

(** Outcome of [subprocess.Popen]. *)
Inductive popen_result : Type :=
| Started (pid : Z)
| PopenFileNotFoundError
| PopenException (e : string).

(** Outcome of [subprocess.check_output(...)]; where the script decodes the
    bytes, [Output] carries the decoded (ASCII) text and a decoding error is
    one of the [CheckException]s. *)
Inductive check_output_result : Type :=
| Output (out : string)
| CalledProcessError (returncode : Z)
| CheckFileNotFoundError
| CheckException (e : string).

(** Outcome of [os.kill]. *)
Inductive kill_result : Type :=
| Signalled
| ProcessLookupError
| PermissionError
| KillException (e : string).

(** The oracle: each call is answered from the trace so far. *)
Record OS : Type := {
  os_popen : list event -> list string -> popen_result;
  os_check_output : list event -> list string -> bool -> check_output_result;
  os_kill : list event -> Z -> kill_result;
  os_waitpid : list event -> Z -> option Z
}.

(** A [subprocess.Popen] object: [returncode] is [None] until a [poll]
    sees the child gone. *)
Record Popen : Type := { pid : Z; returncode : option Z }.

(** The module globals and the trace. *)
Record state : Type := {
  DEBUG_MODE : bool;
  vlc_process : option Popen;
  trace : list event
}.

Definition M (A : Type) : Type := state -> A * state.

Definition ret {A} (a : A) : M A := fun s => (a, s).

Definition bind {A B} (m : M A) (k : A -> M B) : M B :=
  fun s => let (a, s') := m s in k a s'.

Notation "x <- m ;; k" := (bind m (fun x => k))
  (at level 61, m at next level, right associativity).
Notation "m ;; k" := (bind m (fun _ => k))
  (at level 61, right associativity).

Definition emit (e : event) : M unit :=
  fun s => (tt, {| DEBUG_MODE := DEBUG_MODE s;
                   vlc_process := vlc_process s;
                   trace := trace s ++ [e] |}).

Definition print (msg : string) : M unit := emit (Print msg).

Definition get_debug : M bool := fun s => (DEBUG_MODE s, s).

Definition get_vlc_process : M (option Popen) := fun s => (vlc_process s, s).

Definition set_vlc_process (p : option Popen) : M unit :=
  fun s => (tt, {| DEBUG_MODE := DEBUG_MODE s;
                   vlc_process := p;
                   trace := trace s |}).

(** [debug_print(message)] *)
Definition debug_print (message : string) : M unit :=
  d <- get_debug ;;
  if d then print message else ret tt.

Definition exec {A} (m : M A) (s : state) : state := snd (m s).

(** The events a computation adds to the trace of [s]. *)
Definition emitted {A} (m : M A) (s : state) : list event :=
  skipn (length (trace s)) (trace (exec m s)).

Section Script.

Variable os : OS.

(** *** The four system calls *)

Definition Popen_call (command : list string) : M popen_result :=
  fun s => (os_popen os (trace s) command,
            {| DEBUG_MODE := DEBUG_MODE s;
               vlc_process := vlc_process s;
               trace := trace s ++ [Spawn command] |}).

Definition check_output (args : list string) (stderr_devnull : bool)
  : M check_output_result :=
  fun s => (os_check_output os (trace s) args stderr_devnull,
            {| DEBUG_MODE := DEBUG_MODE s;
               vlc_process := vlc_process s;
               trace := trace s ++ [CheckOutput args stderr_devnull] |}).

Definition kill (p : Z) : M kill_result :=
  fun s => (os_kill os (trace s) p,
            {| DEBUG_MODE := DEBUG_MODE s;
               vlc_process := vlc_process s;
               trace := trace s ++ [Kill p] |}).

(** [vlc_process.poll()] on the tracked object: a cached [returncode] is
    returned as it is, otherwise the child is waited for without blocking
    and the object remembers a return code it gets. *)
Definition poll (p : Popen) : M (option Z) :=
  match returncode p with
  | Some rc => ret (Some rc)
  | None =>
      fun s => let r := os_waitpid os (trace s) (pid p) in
               (r, {| DEBUG_MODE := DEBUG_MODE s;
                      vlc_process := Some {| pid := pid p; returncode := r |};
                      trace := trace s ++ [Wait (pid p)] |})
  end.

(** *** start_vlc *)

Definition unknown_format_msg (media_format : string) : string :=
  "Error: Unknown format '" ++ media_format
    ++ "'. Supported formats are 'gif', 'photo', 'video'.".

Definition already_running_msg : string :=
  "VLC is already running via this script. Please stop it first before starting a new one.".

Definition cvlc_missing_msg : string :=
  "Error: `cvlc` command not found. Make sure VLC is installed and in your system's PATH.".

Definition start_failed_msg (e : string) : string :=
  "An unexpected error occurred while trying to start VLC: " ++ e.

(** The [if]/[elif] chain on [media_format]; [None] is its [else]. *)
Definition vlc_options (media_format : string) : option (list string) :=
  if String.eqb media_format "photo" then
    Some ["--play-and-pause"; "--no-osd"]
  else if String.eqb media_format "video" then
    Some ["--loop"; "--no-osd"]
  else if String.eqb media_format "gif" then
    Some ["--demux=avformat"; "--loop"; "--no-osd"; "--aspect-ratio=4:3"; "--crop=16:9"]
  else None.

Definition start_vlc (media_path media_format : string) (dry_run : bool) : M unit :=
  match vlc_options media_format with
  | None => print (unknown_format_msg media_format)
  | Some options =>
      let command := (["cvlc"; media_path] ++ options)%list in
      debug_print (PyStr.nl ++ "--- VLC Command ---") ;;
      debug_print ("Format: " ++ media_format) ;;
      debug_print ("File: " ++ media_path) ;;
      debug_print ("Generated Command: " ++ PyStr.join " " command) ;;
      debug_print "-------------------" ;;
      if negb dry_run then
        tracked <- get_vlc_process ;;
        match tracked with
        | Some _ => print already_running_msg
        | None =>
            debug_print (PyStr.nl ++ "Executing command...") ;;
            r <- Popen_call command ;;
            match r with
            | Started p =>
                set_vlc_process (Some {| pid := p; returncode := None |}) ;;
                debug_print ("VLC started with PID: " ++ PyStr.str_of_int p) ;;
                emit Sleep
            | PopenFileNotFoundError => print cvlc_missing_msg
            | PopenException e => print (start_failed_msg e)
            end
        end
      else
        debug_print (PyStr.nl ++ "Performing a dry run (command not executed).")
  end.

(** *** stop_vlc_process *)

Definition pgrep_missing_msg1 : string :=
  "Error: 'pgrep' command not found. Cannot automatically find and kill processes.".

Definition pgrep_missing_msg2 : string :=
  "Please ensure 'pgrep' is installed and in your system's PATH.".

Definition pgrep_failed_msg (e : string) : string :=
  "An unexpected error occurred while trying to find processes with 'pgrep': " ++ e.

Definition none_found_debug_msg : string :=
  "No 'vlc' processes found by 'pgrep'.".

Definition none_running_msg : string :=
  "No 'vlc' processes are currently running.".

Definition signalled_msg (killed_count : nat) : string :=
  "Successfully sent termination signal to "
    ++ PyStr.str_of_int (Z.of_nat killed_count) ++ " 'vlc' process(es).".

Definition none_signalled_msg : string :=
  "No 'vlc' processes were successfully terminated (might be running under different user or already dead).".

Definition permission_msg (p : Z) : string :=
  "Permission denied to kill PID " ++ PyStr.str_of_int p ++ ". Check user permissions.".

Definition kill_failed_msg (p : Z) (e : string) : string :=
  "An error occurred while trying to kill PID " ++ PyStr.str_of_int p ++ ": " ++ e.

(** [[int(pid) for pid in lines]]: the first line that is no integer
    raises, with its [ValueError] text. *)
Fixpoint int_all (lines : list string) : list Z + string :=
  match lines with
  | [] => inl []
  | l :: ls =>
      match PyStr.int l with
      | None => inr (PyStr.int_error l)
      | Some z =>
          match int_all ls with
          | inl zs => inl (z :: zs)
          | inr e => inr e
          end
      end
  end.

(** What the [try] block leaves in [found_pids] once [pgrep] has answered
    [out], or the text of the exception raised on the way. *)
Definition parse_pids (out : string) : list Z + string :=
  let pgrep_output := PyStr.strip out in
  if PyStr.truthy pgrep_output then int_all (PyStr.split PyStr.LF pgrep_output)
  else inl [].

(** [if vlc_process: vlc_process = None] *)
Definition forget_tracked : M unit :=
  tracked <- get_vlc_process ;;
  match tracked with
  | Some _ => set_vlc_process None
  | None => ret tt
  end.

(** One turn of the [for pid in found_pids] loop. *)
Definition signal_one (killed_count : nat) (p : Z) : M nat :=
  r <- kill p ;;
  match r with
  | Signalled =>
      debug_print ("Sent SIGTERM to PID " ++ PyStr.str_of_int p ++ ".") ;;
      ret (S killed_count)
  | ProcessLookupError =>
      debug_print ("PID " ++ PyStr.str_of_int p
                     ++ " not found (already terminated or invalid).") ;;
      ret killed_count
  | PermissionError =>
      print (permission_msg p) ;; ret killed_count
  | KillException e =>
      print (kill_failed_msg p e) ;; ret killed_count
  end.

Fixpoint signal_all (found_pids : list Z) (killed_count : nat) : M nat :=
  match found_pids with
  | [] => ret killed_count
  | p :: rest =>
      k <- signal_one killed_count p ;;
      signal_all rest k
  end.

(** The part of [stop_vlc_process] after the [try] block. *)
Definition stop_found (found_pids : list Z) : M unit :=
  match found_pids with
  | [] => print none_running_msg ;; forget_tracked
  | _ :: _ =>
      debug_print ("Found 'vlc' processes with PIDs: "
                     ++ PyStr.join ", " (map PyStr.str_of_int found_pids)) ;;
      debug_print "Attempting to terminate..." ;;
      killed_count <- signal_all found_pids 0%nat ;;
      if (0 <? killed_count)%nat then
        print (signalled_msg killed_count) ;; forget_tracked
      else print none_signalled_msg
  end.

Definition stop_vlc_process : M unit :=
  r <- check_output ["pgrep"; "vlc"] false ;;
  match r with
  | Output out =>
      match parse_pids out with
      | inl found_pids => stop_found found_pids
      | inr e => print (pgrep_failed_msg e)
      end
  | CalledProcessError _ =>
      debug_print none_found_debug_msg ;; forget_tracked
  | CheckFileNotFoundError =>
      print pgrep_missing_msg1 ;; print pgrep_missing_msg2
  | CheckException e => print (pgrep_failed_msg e)
  end.

(** *** get_vlc_status *)

Definition status_count_msg (pgrep_count : Z) : string :=
  "VLC status: " ++ PyStr.str_of_int pgrep_count ++ " process(es) running.".

Definition status_none_msg : string := "VLC status: No processes running.".

Definition status_unknown_msg : string :=
  "VLC status: Unable to determine (pgrep error).".

Definition status_pgrep_missing_msg : string :=
  "Error: 'pgrep' command not found. Cannot determine status.".

Definition status_failed_msg (e : string) : string :=
  "An unexpected error occurred while checking status: " ++ e.

Definition found_some_debug_msg : string :=
  "At least one 'vlc' process is currently running (found by pgrep).".

Definition found_none_debug_msg : string :=
  "No 'vlc' processes are currently running (not found by pgrep).".

Definition tracked_active_msg (p : Z) : string :=
  "  (Internally tracked VLC process with PID " ++ PyStr.str_of_int p ++ " is active.)".

Definition tracked_terminated_msg (p : Z) : string :=
  "  (Internally tracked VLC process with PID " ++ PyStr.str_of_int p
    ++ " has terminated.)".

Definition untracked_msg : string :=
  "  (No VLC process is currently tracked by this script instance.)".

(** The first [try]: is anything found at all. *)
Definition status_probe : M unit :=
  r <- check_output ["pgrep"; "-c"; "vlc"] true ;;
  match r with
  | Output _ => debug_print found_some_debug_msg
  | CalledProcessError _ => debug_print found_none_debug_msg
  | CheckFileNotFoundError => print status_pgrep_missing_msg
  | CheckException e => print (status_failed_msg e)
  end.

(** The [if]/[elif]/[else] on the tracked process.  The [elif] polls
    again, on the object as the first [poll] left it. *)
Definition status_tracked : M unit :=
  tracked <- get_vlc_process ;;
  match tracked with
  | None => debug_print untracked_msg
  | Some p =>
      rc <- poll p ;;
      match rc with
      | None => debug_print (tracked_active_msg (pid p))
      | Some _ =>
          tracked' <- get_vlc_process ;;
          match tracked' with
          | None => debug_print untracked_msg
          | Some p' =>
              rc' <- poll p' ;;
              match rc' with
              | Some _ =>
                  debug_print (tracked_terminated_msg (pid p')) ;;
                  set_vlc_process None
              | None => debug_print untracked_msg
              end
          end
      end
  end.

(** The concise summary, printed when [DEBUG_MODE] is off.  Every
    exception of its [try] ends in the same message. *)
Definition status_summary : M unit :=
  d <- get_debug ;;
  if negb d then
    r <- check_output ["pgrep"; "-c"; "vlc"] false ;;
    match r with
    | Output out =>
        match PyStr.int (PyStr.strip out) with
        | Some pgrep_count =>
            if 0 <? pgrep_count then print (status_count_msg pgrep_count)
            else print status_none_msg
        | None => print status_unknown_msg
        end
    | _ => print status_unknown_msg
    end
  else ret tt.

Definition get_vlc_status : M unit :=
  status_probe ;; status_tracked ;; status_summary.

End Script.

(** ** Reading a trace *)

(** The commands handed to [subprocess.Popen]. *)
Definition spawned (evs : list event) : list (list string) :=
  flat_map (fun e => match e with Spawn c => [c] | _ => [] end) evs.

(** The process ids handed to [os.kill]. *)
Definition kills (evs : list event) : list Z :=
  flat_map (fun e => match e with Kill p => [p] | _ => [] end) evs.

(** The messages printed. *)
Definition prints (evs : list event) : list string :=
  flat_map (fun e => match e with Print m => [m] | _ => [] end) evs.

Definition is_print (e : event) : bool :=
  match e with Print _ => true | _ => false end.

(** ** The three formats of the specification *)

Inductive format : Type := photo | video | gif.

Definition format_name (f : format) : string :=
  match f with photo => "photo" | video => "video" | gif => "gif" end.

(** The flag table as the specification words it (section 4.1). *)
Definition spec_flags (f : format) : list string :=
  match f with
  | photo => ["--play-and-pause"; "--no-osd"]
  | video => ["--loop"; "--no-osd"]
  | gif => ["--demux=avformat"; "--loop"; "--no-osd"; "--aspect-ratio=4:3"; "--crop=16:9"]
  end.

Definition spec_command (media_path : string) (f : format) : list string :=
  "cvlc" :: media_path :: spec_flags f.

Definition generated_command_msg (command : list string) : string :=
  "Generated Command: " ++ PyStr.join " " command.

Definition is_started (r : popen_result) : bool :=
  match r with Started _ => true | _ => false end.

(** ** The shape of a start *)

(** The debug banner that precedes every start, dry or not. *)
Definition banner (media_path : string) (f : format) : list event :=
  [Print (PyStr.nl ++ "--- VLC Command ---");
   Print ("Format: " ++ format_name f);
   Print ("File: " ++ media_path);
   Print (generated_command_msg (spec_command media_path f));
   Print "-------------------"].

Definition when (b : bool) (evs : list event) : list event :=
  if b then evs else [].

(** The trace at the moment [Popen] is called. *)
Definition before_spawn (media_path : string) (f : format) (s : state) : list event :=
  (trace s ++ when (DEBUG_MODE s)
    (banner media_path f ++ [Print (PyStr.nl ++ "Executing command...")%string]))%list.

(** What follows the [Popen] call: the globals and the rest of the trace. *)
Definition after_spawn (debug : bool) (r : popen_result) : option Popen * list event :=
  match r with
  | Started p =>
      (Some {| pid := p; returncode := None |},
       (when debug [Print ("VLC started with PID: " ++ PyStr.str_of_int p)%string]
          ++ [Sleep])%list)
  | PopenFileNotFoundError => (None, [Print cvlc_missing_msg])
  | PopenException e => (None, [Print (start_failed_msg e)])
  end.

(** ** Scenarios

    Oracles that answer every call of one kind the same way, and the states
    of a script that has just been started. *)

Definition const_os (p : popen_result) (c : check_output_result)
           (k : kill_result) (w : option Z) : OS :=
  {| os_popen := fun _ _ => p;
     os_check_output := fun _ _ _ => c;
     os_kill := fun _ _ => k;
     os_waitpid := fun _ _ => w |}.

(** Nothing is tracked and nothing has happened yet. *)
Definition fresh (debug : bool) : state :=
  {| DEBUG_MODE := debug; vlc_process := None; trace := [] |}.

(** A player with process id [p] is tracked and has not been polled. *)
Definition tracking (debug : bool) (p : Z) : state :=
  {| DEBUG_MODE := debug;
     vlc_process := Some {| pid := p; returncode := None |};
     trace := [] |}.

Definition is_signalled (r : kill_result) : bool :=
  match r with Signalled => true | _ => false end.

(** The enumeration found nothing: [pgrep] left with exit status 1, its
    status for no match (the script reads every [CalledProcessError] that
    way), or it succeeded and [found_pids] stayed empty. *)
Definition matched_none (r : check_output_result) : bool :=
  match r with
  | CalledProcessError rc => rc =? 1
  | Output out => match parse_pids out with inl [] => true | _ => false end
  | _ => false
  end.

(** The enumeration call of [stop_vlc_process]. *)
Definition pgrep_vlc : event := CheckOutput ["pgrep"; "vlc"] false.

(** The claim that a stop whose enumeration found nothing says so and
    signals nobody. *)
Definition stop_reports_no_processes (os : OS) (s : state) : Prop :=
  matched_none (os_check_output os (trace s) ["pgrep"; "vlc"] false) = true ->
  In none_running_msg (prints (emitted (stop_vlc_process os) s))
  /\ kills (emitted (stop_vlc_process os) s) = [].

(** ** The shape of a status query *)

(** The two enumeration calls of [get_vlc_status]. *)
Definition pgrep_count (stderr_devnull : bool) : event :=
  CheckOutput ["pgrep"; "-c"; "vlc"] stderr_devnull.

(** What the first [try] prints on the answer [r]. *)
Definition probe_events (debug : bool) (r : check_output_result) : list event :=
  match r with
  | Output _ => when debug [Print found_some_debug_msg]
  | CalledProcessError _ => when debug [Print found_none_debug_msg]
  | CheckFileNotFoundError => [Print status_pgrep_missing_msg]
  | CheckException e => [Print (status_failed_msg e)]
  end.

(** What [poll] answers for [p] when called at trace [tr]. *)
Definition poll_outcome (os : OS) (tr : list event) (p : Popen) : option Z :=
  match returncode p with
  | Some rc => Some rc
  | None => os_waitpid os tr (pid p)
  end.

(** The tracked process after the [if]/[elif]/[else]: dropped exactly when
    [poll] reported an exit. *)
Definition tracked_after (os : OS) (tr : list event) (t : option Popen) : option Popen :=
  match t with
  | None => None
  | Some p => match poll_outcome os tr p with None => Some p | Some _ => None end
  end.

Definition tracked_events (os : OS) (tr : list event) (debug : bool) (t : option Popen)
  : list event :=
  match t with
  | None => when debug [Print untracked_msg]
  | Some p =>
      (match returncode p with None => [Wait (pid p)] | Some _ => [] end
       ++ when debug [Print (match poll_outcome os tr p with
                             | None => tracked_active_msg (pid p)
                             | Some _ => tracked_terminated_msg (pid p)
                             end)])%list
  end.

(** The concise summary for the answer [r] of the second call. *)
Definition summary_msg (r : check_output_result) : string :=
  match r with
  | Output out =>
      match PyStr.int (PyStr.strip out) with
      | Some c => if 0 <? c then status_count_msg c else status_none_msg
      | None => status_unknown_msg
      end
  | _ => status_unknown_msg
  end.

(** The claim that a status query reports the count [M] that [pgrep -c]
    printed, in every state. *)
Definition status_reports_count (os : OS) (s : state) (M : Z) : Prop :=
  (forall tr b, os_check_output os tr ["pgrep"; "-c"; "vlc"] b
                = Output (PyStr.str_of_int M ++ PyStr.nl)) ->
  In (if 0 <? M then status_count_msg M else status_none_msg)
     (prints (emitted (get_vlc_status os) s)).

(** The claim that a status query signals nobody and leaves the tracked
    process as it was. *)
Definition status_changes_nothing (os : OS) (s : state) : Prop :=
  kills (emitted (get_vlc_status os) s) = []
  /\ vlc_process (exec (get_vlc_status os) s) = vlc_process s.

(** ** More ways to read a trace *)

(** The process ids waited for by [poll]. *)
Definition waits (evs : list event) : list Z :=
  flat_map (fun e => match e with Wait p => [p] | _ => [] end) evs.

(** The [check_output] calls: the argument list, and whether the standard
    error of the child went to [DEVNULL]. *)
Definition checks (evs : list event) : list (list string * bool) :=
  flat_map (fun e => match e with CheckOutput a b => [(a, b)] | _ => [] end) evs.

(** How many times the script slept. *)
Definition sleeps (evs : list event) : nat :=
  length (filter (fun e => match e with Sleep => true | _ => false end) evs).

(** The system calls of a trace: everything but the prints. *)
Definition silence (evs : list event) : list event :=
  filter (fun e => negb (is_print e)) evs.

(** An operating system that does not read the terminal: its answers depend
    on the system calls made so far, not on what was printed. *)
Definition print_blind (os : OS) : Prop :=
  (forall tr c, os_popen os tr c = os_popen os (silence tr) c)
  /\ (forall tr a b, os_check_output os tr a b = os_check_output os (silence tr) a b)
  /\ (forall tr p, os_kill os tr p = os_kill os (silence tr) p)
  /\ (forall tr p, os_waitpid os tr p = os_waitpid os (silence tr) p).

(** Two states that made the same system calls and track the same process;
    [DEBUG_MODE] and the prints may differ. *)
Definition same_calls (s1 s2 : state) : Prop :=
  silence (trace s1) = silence (trace s2) /\ vlc_process s1 = vlc_process s2.

(** ** Shapes of text *)

Fixpoint all_chars (P : ascii -> bool) (s : string) : bool :=
  match s with
  | EmptyString => true
  | String c s' => P c && all_chars P s'
  end.

(** The characters of [str(n)]: digits and the minus sign. *)
Definition is_pid_char (c : ascii) : bool :=
  PyStr.isdigit c || Ascii.eqb c "-"%char.

Definition not_char (sep c : ascii) : bool := negb (Ascii.eqb c sep).

(** The last character, if there is one, is not an [sp] character. *)
Fixpoint ends_clean (sp : ascii -> bool) (s : string) : bool :=
  match s with
  | EmptyString => true
  | String c s' =>
      match s' with
      | EmptyString => negb (sp c)
      | String _ _ => ends_clean sp s'
      end
  end.

(** What [pgrep] prints for the processes [pids]: one id per line. *)
Definition pgrep_lines (pids : list Z) : string :=
  PyStr.join PyStr.nl (map PyStr.str_of_int pids) ++ PyStr.nl.

(** ** main

    [parser.parse_args()] is taken as done: [main] is modelled from the
    namespace it returns.  [parser.error(msg)] leaves the interpreter with
    exit status 2; it is the result [Some msg], and [None] is a normal
    return. *)

Record args : Type := {
  action_or_format : string;
  file : option string;          (* nargs='?': None when absent *)
  dry_run : bool;
  debug : bool
}.

(** Truth value of [args.file]: present and not the empty string. *)
Definition file_truthy (f : option string) : bool :=
  match f with Some p => PyStr.truthy p | None => false end.

Definition file_required_msg (media_format : string) : string :=
  "Error: A file path is required when specifying the format '" ++ media_format
    ++ "'. Usage: evlc " ++ media_format ++ " <file_path>".

Definition stop_usage_msg : string :=
  "Error: 'stop' command does not take a file path or --dry-run. Usage: evlc stop".

Definition status_usage_msg : string :=
  "Error: 'status' command does not take a file path or --dry-run. Usage: evlc status".

Definition unrecognized_msg (a : string) : string :=
  "Error: Unrecognized command or media format: '" ++ a
    ++ "'. Expected 'gif', 'photo', 'video', 'stop', or 'status'.".

(** [DEBUG_MODE = args.debug] *)
Definition set_debug (d : bool) : M unit :=
  fun s => (tt, {| DEBUG_MODE := d;
                   vlc_process := vlc_process s;
                   trace := trace s |}).

Definition main (os : OS) (a : args) : M (option string) :=
  set_debug (debug a) ;;
  if existsb (String.eqb (action_or_format a)) ["gif"; "photo"; "video"] then
    let media_format := action_or_format a in
    match file a with
    | Some media_file =>
        if PyStr.truthy media_file then
          start_vlc os media_file media_format (dry_run a) ;; ret None
        else ret (Some (file_required_msg media_format))
    | None => ret (Some (file_required_msg media_format))
    end
  else if String.eqb (action_or_format a) "stop" then
    if file_truthy (file a) || dry_run a then ret (Some stop_usage_msg)
    else stop_vlc_process os ;; ret None
  else if String.eqb (action_or_format a) "status" then
    if file_truthy (file a) || dry_run a then ret (Some status_usage_msg)
    else get_vlc_status os ;; ret None
  else ret (Some (unrecognized_msg (action_or_format a))).

(** The module as the interpreter has just loaded it. *)
Definition loaded : state :=
  {| DEBUG_MODE := false; vlc_process := None; trace := [] |}.

(** ** The shape of a signalling turn *)

(** One turn of the loop of [stop_vlc_process] on [p], when [os.kill]
    answers [r]. *)
Definition turn_events (debug : bool) (p : Z) (r : kill_result) : list event :=
  Kill p ::
  match r with
  | Signalled => when debug [Print ("Sent SIGTERM to PID " ++ PyStr.str_of_int p ++ ".")%string]
  | ProcessLookupError =>
      when debug [Print ("PID " ++ PyStr.str_of_int p
                           ++ " not found (already terminated or invalid).")%string]
  | PermissionError => [Print (permission_msg p)]
  | KillException e => [Print (kill_failed_msg p e)]
  end.

(** The two debug lines that precede the loop. *)
Definition found_events (debug : bool) (found_pids : list Z) : list event :=
  when debug
    [Print ("Found 'vlc' processes with PIDs: "
              ++ PyStr.join ", " (map PyStr.str_of_int found_pids))%string;
     Print "Attempting to terminate..."].

(** No start has been refused so far. *)
Definition never_refused (s : state) : Prop :=
  ~ In (Print already_running_msg) (trace s).

(** A character of the ASCII range, which every standard output can
    encode and on which [str] and [bytes] agree. *)
Definition is_ascii (c : ascii) : bool := (nat_of_ascii c <? 128)%nat.


(** * Properties *)

(** ** Generic facts *)

Lemma skipn_trace (tr evs : list event) : skipn (length tr) (tr ++ evs) = evs.
Proof.
  induction tr as [|e tr IH]; simpl; auto.
Qed.

Lemma emitted_app {A} (m : M A) (s : state) (evs : list event) :
  trace (exec m s) = (trace s ++ evs)%list -> emitted m s = evs.
Proof.
  unfold emitted. intros ->. apply skipn_trace.
Qed.

Lemma spawned_app (a b : list event) : spawned (a ++ b) = (spawned a ++ spawned b)%list.
Proof. apply flat_map_app. Qed.

Lemma kills_app (a b : list event) : kills (a ++ b) = (kills a ++ kills b)%list.
Proof. apply flat_map_app. Qed.

Lemma prints_app (a b : list event) : prints (a ++ b) = (prints a ++ prints b)%list.
Proof. apply flat_map_app. Qed.

Lemma vlc_options_format (f : format) : vlc_options (format_name f) = Some (spec_flags f).
Proof. destruct f; reflexivity. Qed.

(** Unfolds the monad and the primitive actions. *)
Ltac run :=
  cbv [exec bind ret debug_print print emit get_debug get_vlc_process
       set_vlc_process Popen_call check_output kill];
  cbn [fst snd DEBUG_MODE vlc_process trace negb].

Ltac tidy := rewrite <- ?app_assoc; cbn [app].

(** ** start_vlc *)

Section StartVlc.

Variable os : OS.

Lemma start_vlc_unknown (media_path media_format : string) (dry_run : bool) (s : state) :
  vlc_options media_format = None ->
  exec (start_vlc os media_path media_format dry_run) s =
    {| DEBUG_MODE := DEBUG_MODE s;
       vlc_process := vlc_process s;
       trace := (trace s ++ [Print (unknown_format_msg media_format)])%list |}.
Proof.
  intros H. unfold start_vlc. rewrite H. reflexivity.
Qed.

Lemma start_vlc_dry (media_path : string) (f : format) (s : state) :
  exec (start_vlc os media_path (format_name f) true) s =
    {| DEBUG_MODE := DEBUG_MODE s;
       vlc_process := vlc_process s;
       trace := (trace s ++ when (DEBUG_MODE s)
                  (banner media_path f ++
                   [Print (PyStr.nl ++ "Performing a dry run (command not executed).")%string]))%list |}.
Proof.
  unfold start_vlc. rewrite vlc_options_format.
  destruct s as [[] t tr]; run; cbn [when]; tidy.
  - reflexivity.
  - rewrite app_nil_r. reflexivity.
Qed.

Lemma start_vlc_tracked (media_path : string) (f : format) (s : state) (p : Popen) :
  vlc_process s = Some p ->
  exec (start_vlc os media_path (format_name f) false) s =
    {| DEBUG_MODE := DEBUG_MODE s;
       vlc_process := Some p;
       trace := (trace s ++ when (DEBUG_MODE s) (banner media_path f)
                  ++ [Print already_running_msg])%list |}.
Proof.
  unfold start_vlc. rewrite vlc_options_format.
  destruct s as [[] t tr]; cbn [vlc_process]; intros ->;
    run; cbn [when]; tidy; reflexivity.
Qed.

Lemma start_vlc_untracked (media_path : string) (f : format) (s : state) :
  vlc_process s = None ->
  let command := spec_command media_path f in
  let r := os_popen os (before_spawn media_path f s) command in
  exec (start_vlc os media_path (format_name f) false) s =
    {| DEBUG_MODE := DEBUG_MODE s;
       vlc_process := fst (after_spawn (DEBUG_MODE s) r);
       trace := (before_spawn media_path f s ++ [Spawn command]
                  ++ snd (after_spawn (DEBUG_MODE s) r))%list |}.
Proof.
  unfold start_vlc, before_spawn. rewrite vlc_options_format.
  destruct s as [[] t tr]; cbn [vlc_process DEBUG_MODE trace]; intros ->;
    run; cbn [when]; tidy; rewrite ?app_nil_r;
    fold (spec_command media_path f);
    destruct (os_popen os _ _); run; cbn [after_spawn when fst snd]; tidy; reflexivity.
Qed.

End StartVlc.

(** Settles [Print m = Print m'] for two messages that differ. *)
Ltac differ H :=
  try (injection H as H);
  cbv [already_running_msg unknown_format_msg cvlc_missing_msg start_failed_msg
       generated_command_msg PyStr.nl PyStr.LF] in H;
  cbn [append] in H; discriminate H.

Section StartVlcFacts.

Variable os : OS.

Lemma supported_format (media_format : string) (options : list string) :
  vlc_options media_format = Some options ->
  exists f, media_format = format_name f.
Proof.
  unfold vlc_options.
  destruct (String.eqb_spec media_format "photo") as [->|_]; [now exists photo|].
  destruct (String.eqb_spec media_format "video") as [->|_]; [now exists video|].
  destruct (String.eqb_spec media_format "gif") as [->|_]; [now exists gif|].
  discriminate.
Qed.

Lemma start_vlc_dry_emitted (media_path : string) (f : format) (s : state) :
  emitted (start_vlc os media_path (format_name f) true) s =
    when (DEBUG_MODE s)
      (banner media_path f ++
       [Print (PyStr.nl ++ "Performing a dry run (command not executed).")%string])%list.
Proof.
  apply emitted_app. rewrite start_vlc_dry. reflexivity.
Qed.

Lemma start_vlc_unknown_emitted (media_path media_format : string) (dry_run : bool)
      (s : state) :
  vlc_options media_format = None ->
  emitted (start_vlc os media_path media_format dry_run) s =
    [Print (unknown_format_msg media_format)].
Proof.
  intros H. apply emitted_app. rewrite start_vlc_unknown by exact H. reflexivity.
Qed.

Lemma start_vlc_tracked_emitted (media_path : string) (f : format) (s : state) (p : Popen) :
  vlc_process s = Some p ->
  emitted (start_vlc os media_path (format_name f) false) s =
    (when (DEBUG_MODE s) (banner media_path f) ++ [Print already_running_msg])%list.
Proof.
  intros H. apply emitted_app. rewrite (start_vlc_tracked _ _ _ _ _ H). reflexivity.
Qed.

Lemma start_vlc_untracked_emitted (media_path : string) (f : format) (s : state) :
  vlc_process s = None ->
  emitted (start_vlc os media_path (format_name f) false) s =
    (when (DEBUG_MODE s)
       (banner media_path f ++ [Print (PyStr.nl ++ "Executing command...")%string])
     ++ [Spawn (spec_command media_path f)]
     ++ snd (after_spawn (DEBUG_MODE s)
               (os_popen os (before_spawn media_path f s) (spec_command media_path f))))%list.
Proof.
  intros H. apply emitted_app. rewrite (start_vlc_untracked _ _ _ _ H).
  cbn [trace]. unfold before_spawn. now rewrite <- app_assoc.
Qed.

Lemma start_vlc_dry_globals (media_path media_format : string) (s : state) :
  vlc_process (exec (start_vlc os media_path media_format true) s) = vlc_process s.
Proof.
  destruct (vlc_options media_format) as [options|] eqn:Hopt.
  - destruct (supported_format _ _ Hopt) as [f ->]. now rewrite start_vlc_dry.
  - now rewrite (start_vlc_unknown _ _ _ _ _ Hopt).
Qed.

Lemma spawned_banner (b : bool) (media_path : string) (f : format) (rest : list event) :
  spawned (when b (banner media_path f ++ rest)) = spawned (when b rest).
Proof. destruct b; reflexivity. Qed.

Lemma spawned_after_spawn (b : bool) (r : popen_result) :
  spawned (snd (after_spawn b r)) = [].
Proof. destruct r, b; reflexivity. Qed.

Lemma already_running_not_in_banner (b : bool) (media_path : string) (f : format) :
  ~ In (Print already_running_msg) (when b (banner media_path f)).
Proof.
  destruct b; cbn [when banner In]; [|tauto].
  intros [H|[H|[H|[H|[H|[]]]]]]; differ H.
Qed.

Lemma already_running_not_after_spawn (b : bool) (r : popen_result) :
  ~ In (Print already_running_msg) (snd (after_spawn b r)).
Proof.
  destruct r, b; cbn [after_spawn snd when app In];
    intuition (try discriminate); match goal with H : Print _ = _ |- _ => differ H end.
Qed.

End StartVlcFacts.

(** ** Claims about start_vlc *)

(** C1.  For each of the three formats, a start that is not a dry run and
    finds nothing tracked hands [Popen] exactly one command: [cvlc], then the
    media path, then the flags of the specification's table in the table's
    order; with [DEBUG_MODE] on, the same command line is what the banner
    prints, dry run or not. *)
Theorem start_vlc_command_line (os : OS) (s : state) (media_path : string) (f : format)
        (Huntracked : vlc_process s = None) :
  spawned (emitted (start_vlc os media_path (format_name f) false) s)
    = ["cvlc" :: media_path :: spec_flags f]
  /\ forall dry_run, DEBUG_MODE s = true ->
       In (Print ("Generated Command: "
                    ++ PyStr.join " " ("cvlc" :: media_path :: spec_flags f)))
          (emitted (start_vlc os media_path (format_name f) dry_run) s).
Proof.
  split.
  - rewrite (start_vlc_untracked_emitted os _ _ _ Huntracked).
    rewrite spawned_app, spawned_banner, spawned_app, spawned_after_spawn.
    destruct (DEBUG_MODE s); reflexivity.
  - intros dry_run Hd. destruct dry_run.
    + rewrite start_vlc_dry_emitted, Hd. cbn. tauto.
    + rewrite (start_vlc_untracked_emitted os _ _ _ Huntracked), Hd. cbn. tauto.
Qed.

Lemma start_vlc_command_line_witness :
  vlc_process (fresh false) = None
  /\ spawned (emitted (start_vlc (const_os (Started 4242) (CalledProcessError 1)
                                        ProcessLookupError None)
                              "/tmp/a.gif" "gif" false) (fresh false))
    = [["cvlc"; "/tmp/a.gif"; "--demux=avformat"; "--loop"; "--no-osd";
        "--aspect-ratio=4:3"; "--crop=16:9"]].
Proof.
  split; [reflexivity|].
  exact (proj1 (start_vlc_command_line
                  (const_os (Started 4242) (CalledProcessError 1) ProcessLookupError None)
                  (fresh false) "/tmp/a.gif" gif eq_refl)).
Defined.

(** C2.  A dry run, whatever the format string and the path, hands nothing
    to [Popen], leaves [vlc_process] and [DEBUG_MODE] as they were and only
    appends prints to the trace. *)
Theorem start_vlc_dry_run_no_effect (os : OS) (s : state) (media_path media_format : string) :
  let s' := exec (start_vlc os media_path media_format true) s in
  let evs := emitted (start_vlc os media_path media_format true) s in
  vlc_process s' = vlc_process s
  /\ DEBUG_MODE s' = DEBUG_MODE s
  /\ trace s' = (trace s ++ evs)%list
  /\ spawned evs = []
  /\ kills evs = []
  /\ forallb is_print evs = true.
Proof.
  cbv zeta. destruct (vlc_options media_format) as [options|] eqn:Hopt.
  - destruct (supported_format _ _ Hopt) as [f ->].
    rewrite start_vlc_dry_emitted, start_vlc_dry. cbn [vlc_process DEBUG_MODE trace].
    destruct (DEBUG_MODE s); repeat split; reflexivity.
  - rewrite (start_vlc_unknown_emitted os _ _ _ _ Hopt), (start_vlc_unknown os _ _ _ _ Hopt).
    repeat split; reflexivity.
Qed.

(** C3.  A start that is not a dry run and finds a process tracked prints
    the already-running message as its last action, hands nothing to [Popen]
    and leaves that same process tracked.  ([vlc_process] is an optional
    value, so no state ever tracks more than one process.) *)
Theorem start_vlc_already_running (os : OS) (s : state) (p : Popen)
        (media_path : string) (f : format)
        (Htracked : vlc_process s = Some p) :
  let s' := exec (start_vlc os media_path (format_name f) false) s in
  let evs := emitted (start_vlc os media_path (format_name f) false) s in
  vlc_process s' = Some p
  /\ (exists pre, evs = (pre ++ [Print already_running_msg])%list)
  /\ spawned evs = []
  /\ forallb is_print evs = true.
Proof.
  cbv zeta. rewrite (start_vlc_tracked_emitted os _ _ _ _ Htracked),
    (start_vlc_tracked os _ _ _ _ Htracked). cbn [vlc_process].
  split; [reflexivity|]. split; [eexists; reflexivity|].
  destruct (DEBUG_MODE s); split; reflexivity.
Qed.

Lemma start_vlc_already_running_witness :
  vlc_process (tracking false 4242) = Some {| pid := 4242; returncode := None |}
  /\ vlc_process (exec (start_vlc (const_os (Started 4243) (CalledProcessError 1)
                                         ProcessLookupError None)
                               "/tmp/clip.mp4" "video" false) (tracking false 4242))
    = Some {| pid := 4242; returncode := None |}.
Proof.
  split; [reflexivity|].
  exact (proj1 (start_vlc_already_running
                  (const_os (Started 4243) (CalledProcessError 1) ProcessLookupError None)
                  (tracking false 4242) _ "/tmp/clip.mp4" video eq_refl)).
Defined.

(** Two starts in a row, the first of which succeeds: one command reaches
    [Popen], the second start is refused, and the process of the first is the
    one tracked at the end. *)
Lemma start_vlc_twice (os : OS) (s : state) (path1 path2 : string) (f1 f2 : format) (p : Z) :
  vlc_process s = None ->
  os_popen os (before_spawn path1 f1 s) (spec_command path1 f1) = Started p ->
  let both := start_vlc os path1 (format_name f1) false ;;
              start_vlc os path2 (format_name f2) false in
  vlc_process (exec both s) = Some {| pid := p; returncode := None |}
  /\ spawned (emitted both s) = [spec_command path1 f1]
  /\ In (Print already_running_msg) (emitted both s).
Proof.
  intros Hnone Hok both.
  assert (Hexec : exec both s =
                  exec (start_vlc os path2 (format_name f2) false)
                       (exec (start_vlc os path1 (format_name f1) false) s)).
  { unfold both, exec, bind. destruct (start_vlc os path1 _ false s). reflexivity. }
  pose proof (start_vlc_untracked os path1 f1 s Hnone) as H1. cbv zeta in H1.
  rewrite Hok in H1. cbn [after_spawn fst snd] in H1.
  set (s1 := exec (start_vlc os path1 (format_name f1) false) s) in *.
  assert (Ht : vlc_process s1 = Some {| pid := p; returncode := None |})
    by (rewrite H1; reflexivity).
  pose proof (start_vlc_tracked os path2 f2 s1 _ Ht) as H2.
  assert (Hem : emitted both s =
                (when (DEBUG_MODE s)
                   (banner path1 f1 ++ [Print (PyStr.nl ++ "Executing command...")%string])
                 ++ [Spawn (spec_command path1 f1)]
                 ++ (when (DEBUG_MODE s)
                       [Print ("VLC started with PID: " ++ PyStr.str_of_int p)%string]
                     ++ [Sleep])
                 ++ when (DEBUG_MODE s) (banner path2 f2)
                 ++ [Print already_running_msg])%list).
  { apply emitted_app. rewrite Hexec, H2, H1. cbn [trace DEBUG_MODE].
    unfold before_spawn. now rewrite <- !app_assoc. }
  rewrite Hexec, H2, Hem. cbn [vlc_process]. split; [reflexivity|]. split.
  - destruct (DEBUG_MODE s); reflexivity.
  - rewrite !in_app_iff. right. right. right. right. left. reflexivity.
Qed.

(** C9.  A dry run never looks at [vlc_process]: in every state, one that
    tracks a process included, it does not print the already-running
    message, and for a supported format with [DEBUG_MODE] on it still prints
    the command line it built. *)
Theorem start_vlc_dry_run_skips_check (os : OS) (s : state) (p : Popen)
        (media_path media_format : string)
        (Htracked : vlc_process s = Some p) :
  let evs := emitted (start_vlc os media_path media_format true) s in
  ~ In (Print already_running_msg) evs
  /\ vlc_process (exec (start_vlc os media_path media_format true) s) = Some p
  /\ forall f, media_format = format_name f -> DEBUG_MODE s = true ->
       In (Print (generated_command_msg (spec_command media_path f))) evs.
Proof.
  cbv zeta. split; [|split].
  - destruct (vlc_options media_format) as [options|] eqn:Hopt.
    + destruct (supported_format _ _ Hopt) as [f ->].
      rewrite start_vlc_dry_emitted.
      destruct (DEBUG_MODE s); cbn [when banner app In]; [|tauto].
      intros [H|[H|[H|[H|[H|[H|[]]]]]]]; differ H.
    + rewrite (start_vlc_unknown_emitted os _ _ _ _ Hopt).
      intros [H|[]]; differ H.
  - now rewrite start_vlc_dry_globals.
  - intros f -> Hd. rewrite start_vlc_dry_emitted, Hd. cbn. tauto.
Qed.

Lemma start_vlc_dry_run_skips_check_witness :
  let os := const_os (Started 4243) (CalledProcessError 1) ProcessLookupError None in
  let s := tracking true 4242 in
  vlc_process s = Some {| pid := 4242; returncode := None |}
  /\ ~ In (Print already_running_msg) (emitted (start_vlc os "/tmp/a.gif" "gif" true) s)
  /\ In (Print "Generated Command: cvlc /tmp/a.gif --demux=avformat --loop --no-osd --aspect-ratio=4:3 --crop=16:9")
        (emitted (start_vlc os "/tmp/a.gif" "gif" true) s).
Proof.
  cbv zeta. split; [reflexivity|].
  pose proof (start_vlc_dry_run_skips_check
                (const_os (Started 4243) (CalledProcessError 1) ProcessLookupError None)
                (tracking true 4242) _ "/tmp/a.gif" "gif" eq_refl) as [H1 [_ H3]].
  split; [exact H1|]. exact (H3 gif eq_refl eq_refl).
Defined.

(** C10.  When nothing is tracked and [Popen] raises ([FileNotFoundError] or
    any other exception), [vlc_process] is still [None] afterwards, and the
    next start, whatever it is asked to play, is not refused: it prints no
    already-running message and hands its command to [Popen]. *)
Theorem start_vlc_spawn_failure (os : OS) (s : state) (media_path : string) (f : format)
        (Huntracked : vlc_process s = None)
        (Hraises : is_started (os_popen os (before_spawn media_path f s)
                                        (spec_command media_path f)) = false) :
  let s' := exec (start_vlc os media_path (format_name f) false) s in
  vlc_process s' = None
  /\ forall (os' : OS) (path' : string) (f' : format),
       let evs := emitted (start_vlc os' path' (format_name f') false) s' in
       ~ In (Print already_running_msg) evs
       /\ spawned evs = [spec_command path' f'].
Proof.
  cbv zeta.
  assert (Hnone : vlc_process (exec (start_vlc os media_path (format_name f) false) s) = None).
  { rewrite (start_vlc_untracked os _ _ _ Huntracked). cbn [vlc_process].
    destruct (os_popen os _ _); [discriminate Hraises|reflexivity|reflexivity]. }
  split; [exact Hnone|]. intros os' path' f'.
  rewrite (start_vlc_untracked_emitted os' _ _ _ Hnone). split.
  - rewrite !in_app_iff. intros [H|[H|H]].
    + revert H. destruct (DEBUG_MODE _); cbn [when banner app In]; [|tauto].
      intros [H|[H|[H|[H|[H|[H|[]]]]]]]; differ H.
    + destruct H as [H|[]]. discriminate H.
    + exact (already_running_not_after_spawn _ _ H).
  - rewrite spawned_app, spawned_banner, spawned_app, spawned_after_spawn.
    destruct (DEBUG_MODE _); reflexivity.
Qed.

Lemma start_vlc_spawn_failure_witness :
  let os := const_os PopenFileNotFoundError (CalledProcessError 1) ProcessLookupError None in
  let s' := exec (start_vlc os "/tmp/clip.mp4" "video" false) (fresh false) in
  vlc_process (fresh false) = None
  /\ is_started (os_popen os (before_spawn "/tmp/clip.mp4" video (fresh false))
                          (spec_command "/tmp/clip.mp4" video)) = false
  /\ vlc_process s' = None
  /\ spawned (emitted (start_vlc os "/tmp/a.gif" "gif" false) s')
     = [["cvlc"; "/tmp/a.gif"; "--demux=avformat"; "--loop"; "--no-osd";
         "--aspect-ratio=4:3"; "--crop=16:9"]].
Proof.
  cbv zeta. split; [reflexivity|]. split; [reflexivity|].
  pose proof (start_vlc_spawn_failure
                (const_os PopenFileNotFoundError (CalledProcessError 1) ProcessLookupError None)
                (fresh false) "/tmp/clip.mp4" video eq_refl eq_refl) as [H1 H2].
  split; [exact H1|].
  exact (proj2 (H2 (const_os PopenFileNotFoundError (CalledProcessError 1)
                             ProcessLookupError None) "/tmp/a.gif" gif)).
Defined.

(** ** stop_vlc_process *)

Section StopVlc.

Variable os : OS.

(** The loop signals every pid once, in order, whatever [os.kill] answers,
    touches neither global, and counts at most one per pid. *)
Lemma signal_all_frame (found_pids : list Z) :
  forall (killed_count : nat) (s : state),
  exists evs,
    trace (snd (signal_all os found_pids killed_count s)) = (trace s ++ evs)%list
    /\ vlc_process (snd (signal_all os found_pids killed_count s)) = vlc_process s
    /\ DEBUG_MODE (snd (signal_all os found_pids killed_count s)) = DEBUG_MODE s
    /\ kills evs = found_pids
    /\ spawned evs = [].
Proof.
  induction found_pids as [|p rest IH]; intros k s.
  - exists []. cbn. rewrite app_nil_r. repeat split; reflexivity.
  - cbn [signal_all]. unfold bind.
    destruct (signal_one os k p s) as [k1 s1] eqn:Hone. cbv beta iota.
    assert (H1 : exists evs1, trace s1 = (trace s ++ Kill p :: evs1)%list
                              /\ vlc_process s1 = vlc_process s
                              /\ DEBUG_MODE s1 = DEBUG_MODE s
                              /\ kills evs1 = [] /\ spawned evs1 = []).
    { revert Hone. unfold signal_one. destruct s as [[] t tr]; run;
        destruct (os_kill os tr p); run; intros [= <- <-]; cbn [trace vlc_process DEBUG_MODE];
        tidy; eexists; (split; [reflexivity|]); repeat split; reflexivity. }
    destruct H1 as (evs1 & Ht1 & Hv1 & Hd1 & Hk1 & Hs1).
    destruct (IH k1 s1) as (evs & Ht & Hv & Hd & Hk & Hs).
    exists (Kill p :: evs1 ++ evs)%list. rewrite Ht, Hv, Hd, Ht1, Hv1, Hd1.
    split; [now rewrite <- app_assoc|].
    split; [reflexivity|]. split; [reflexivity|].
    change (Kill p :: evs1 ++ evs)%list with ([Kill p] ++ evs1 ++ evs)%list.
    rewrite !kills_app, !spawned_app, Hk1, Hs1, Hk, Hs. split; reflexivity.
Qed.

Lemma signal_all_delivered (found_pids : list Z) :
  (forall tr p, In p found_pids -> is_signalled (os_kill os tr p) = true) ->
  forall (killed_count : nat) (s : state),
    fst (signal_all os found_pids killed_count s) = (killed_count + length found_pids)%nat.
Proof.
  induction found_pids as [|p rest IH]; intros Hall k s.
  - cbn. lia.
  - cbn [signal_all]. unfold bind.
    destruct (signal_one os k p s) as [k1 s1] eqn:Hone. cbv beta iota.
    assert (k1 = S k) as ->.
    { revert Hone. unfold signal_one.
      pose proof (Hall (trace s) p (or_introl eq_refl)) as Hp.
      destruct s as [[] t tr]; run; cbn [trace] in Hp;
        destruct (os_kill os tr p); try discriminate Hp; run; now intros [= <- _]. }
    rewrite IH by (intros; apply Hall; now right). cbn [length]. lia.
Qed.

Lemma signal_all_undelivered (found_pids : list Z) :
  (forall tr p, In p found_pids -> is_signalled (os_kill os tr p) = false) ->
  forall (killed_count : nat) (s : state),
    fst (signal_all os found_pids killed_count s) = killed_count.
Proof.
  induction found_pids as [|p rest IH]; intros Hall k s.
  - reflexivity.
  - cbn [signal_all]. unfold bind.
    destruct (signal_one os k p s) as [k1 s1] eqn:Hone. cbv beta iota.
    assert (k1 = k) as ->.
    { revert Hone. unfold signal_one.
      pose proof (Hall (trace s) p (or_introl eq_refl)) as Hp.
      destruct s as [[] t tr]; run; cbn [trace] in Hp;
        destruct (os_kill os tr p); try discriminate Hp; run; now intros [= <- _]. }
    apply IH. intros; apply Hall; now right.
Qed.

End StopVlc.

Section StopVlcRuns.

Variable os : OS.

Lemma forget_tracked_run (s : state) :
  forget_tracked s = (tt, {| DEBUG_MODE := DEBUG_MODE s;
                             vlc_process := None;
                             trace := trace s |}).
Proof.
  destruct s as [d [p|] tr]; reflexivity.
Qed.

(** The run of a stop whose enumeration found at least one process. *)
Lemma stop_matched (s : state) (out : string) (found_pids : list Z) :
  os_check_output os (trace s) ["pgrep"; "vlc"] false = Output out ->
  parse_pids out = inl found_pids ->
  (0 < length found_pids)%nat ->
  exists (killed_count : nat) (evs : list event),
    emitted (stop_vlc_process os) s =
      ([pgrep_vlc]
       ++ when (DEBUG_MODE s)
            [Print ("Found 'vlc' processes with PIDs: "
                      ++ PyStr.join ", " (map PyStr.str_of_int found_pids))%string;
             Print "Attempting to terminate..."]
       ++ evs
       ++ [Print (if (0 <? killed_count)%nat then signalled_msg killed_count
                  else none_signalled_msg)])%list
    /\ kills evs = found_pids
    /\ spawned evs = []
    /\ vlc_process (exec (stop_vlc_process os) s)
       = (if (0 <? killed_count)%nat then None else vlc_process s)
    /\ DEBUG_MODE (exec (stop_vlc_process os) s) = DEBUG_MODE s
    /\ ((forall tr p, In p found_pids -> is_signalled (os_kill os tr p) = true) ->
        killed_count = length found_pids)
    /\ ((forall tr p, In p found_pids -> is_signalled (os_kill os tr p) = false) ->
        killed_count = 0%nat).
Proof.
  intros Hout Hpids Hlen.
  destruct found_pids as [|p ps]; [cbn in Hlen; lia|clear Hlen].
  unfold emitted, stop_vlc_process.
  destruct s as [d t tr]. cbn [trace DEBUG_MODE vlc_process] in *.
  run. rewrite Hout, Hpids. unfold stop_found.
  destruct d; run;
    match goal with
    | |- context [signal_all os ?l 0%nat ?S] =>
        destruct (signal_all_frame os l 0%nat S) as (evs & Ht & Hv & Hd & Hk & Hs);
        pose proof (fun H => signal_all_delivered os l H 0%nat S) as Hall;
        pose proof (fun H => signal_all_undelivered os l H 0%nat S) as Hnone;
        destruct (signal_all os l 0%nat S) as [k s3]
    end;
    cbn [fst snd trace vlc_process DEBUG_MODE] in *;
    exists k, evs;
    (split; [|split; [exact Hk|split; [exact Hs|]]]).
  - destruct (0 <? k)%nat; run; rewrite ?forget_tracked_run; cbn [snd trace];
      rewrite Ht; cbn [when]; tidy; apply skipn_trace.
  - destruct (0 <? k)%nat; run; rewrite ?forget_tracked_run;
      cbn [snd vlc_process DEBUG_MODE]; auto.
  - destruct (0 <? k)%nat; run; rewrite ?forget_tracked_run; cbn [snd trace];
      rewrite Ht; cbn [when]; tidy; apply skipn_trace.
  - destruct (0 <? k)%nat; run; rewrite ?forget_tracked_run;
      cbn [snd vlc_process DEBUG_MODE]; auto.
Qed.


(** [pgrep] succeeded and [found_pids] stayed empty. *)
Lemma stop_empty (s : state) (out : string) :
  os_check_output os (trace s) ["pgrep"; "vlc"] false = Output out ->
  parse_pids out = inl [] ->
  exec (stop_vlc_process os) s =
    {| DEBUG_MODE := DEBUG_MODE s;
       vlc_process := None;
       trace := (trace s ++ [pgrep_vlc; Print none_running_msg])%list |}.
Proof.
  intros Hout Hpids. unfold stop_vlc_process. destruct s as [d t tr].
  cbn [trace] in Hout. run. rewrite Hout, Hpids. unfold stop_found. run.
  rewrite forget_tracked_run. cbn [snd DEBUG_MODE trace]. now tidy.
Qed.

(** [pgrep] left with a non-zero exit status. *)
Lemma stop_called_process_error (s : state) (rc : Z) :
  os_check_output os (trace s) ["pgrep"; "vlc"] false = CalledProcessError rc ->
  exec (stop_vlc_process os) s =
    {| DEBUG_MODE := DEBUG_MODE s;
       vlc_process := None;
       trace := (trace s ++ pgrep_vlc :: when (DEBUG_MODE s) [Print none_found_debug_msg])%list |}.
Proof.
  intros Hout. unfold stop_vlc_process. destruct s as [[] t tr];
    cbn [trace] in Hout; run; rewrite Hout; run;
    rewrite forget_tracked_run; cbn [snd DEBUG_MODE trace when]; now tidy.
Qed.

(** [pgrep] is not installed. *)
Lemma stop_file_not_found (s : state) :
  os_check_output os (trace s) ["pgrep"; "vlc"] false = CheckFileNotFoundError ->
  exec (stop_vlc_process os) s =
    {| DEBUG_MODE := DEBUG_MODE s;
       vlc_process := vlc_process s;
       trace := (trace s ++ [pgrep_vlc; Print pgrep_missing_msg1;
                             Print pgrep_missing_msg2])%list |}.
Proof.
  intros Hout. unfold stop_vlc_process. destruct s as [d t tr].
  cbn [trace] in Hout. run. rewrite Hout. run. now tidy.
Qed.

End StopVlcRuns.

(** ** Claims about stop_vlc_process *)

(** C4.  The stop misses what the claim asks for.  [pgrep] leaves with
    exit status 1 when nothing matches, [check_output] raises, and with
    [DEBUG_MODE] off the handler returns without a word, although the
    branch for an empty list, which such a [pgrep] never lets the script
    reach, prints that no processes are running and is marked in the source
    as a primary status to keep visible. *)
Lemma stop_silent_when_pgrep_finds_nothing :
  let os := const_os (Started 4242) (CalledProcessError 1) Signalled None in
  matched_none (os_check_output os (trace (fresh false)) ["pgrep"; "vlc"] false) = true
  /\ prints (emitted (stop_vlc_process os) (fresh false)) = []
  /\ ~ stop_reports_no_processes os (fresh false).
Proof.
  cbv zeta. split; [reflexivity|]. split; [reflexivity|].
  intros H. destruct (H eq_refl) as [Hin _]. exact Hin.
Qed.

(** The runs of a stop whose enumeration found nothing, as the code has
    them: no signal and no spawn; the no-processes line when [pgrep]
    succeeded with nothing to list; after a non-zero exit only the
    [debug_print] line.  Neither text is the one printed when processes were
    found and no signal got through. *)
Theorem stop_vlc_process_no_match (os : OS) (s : state)
        (Hnone : matched_none (os_check_output os (trace s) ["pgrep"; "vlc"] false) = true) :
  let evs := emitted (stop_vlc_process os) s in
  kills evs = []
  /\ spawned evs = []
  /\ (forall out, os_check_output os (trace s) ["pgrep"; "vlc"] false = Output out ->
       evs = [pgrep_vlc; Print none_running_msg])
  /\ (forall rc, os_check_output os (trace s) ["pgrep"; "vlc"] false = CalledProcessError rc ->
       evs = pgrep_vlc :: when (DEBUG_MODE s) [Print none_found_debug_msg])
  /\ none_running_msg <> none_signalled_msg
  /\ none_found_debug_msg <> none_signalled_msg
  /\ (forall (os' : OS) (s' : state) (out : string) (found_pids : list Z),
        os_check_output os' (trace s') ["pgrep"; "vlc"] false = Output out ->
        parse_pids out = inl found_pids ->
        (0 < length found_pids)%nat ->
        (forall tr p, In p found_pids -> is_signalled (os_kill os' tr p) = false) ->
        exists pre, emitted (stop_vlc_process os') s'
                    = (pre ++ [Print none_signalled_msg])%list).
Proof.
  cbv zeta.
  assert (Hevs : emitted (stop_vlc_process os) s = [pgrep_vlc; Print none_running_msg]
                 \/ emitted (stop_vlc_process os) s
                    = pgrep_vlc :: when (DEBUG_MODE s) [Print none_found_debug_msg]).
  { unfold matched_none in Hnone.
    destruct (os_check_output os (trace s) _ false) as [out|rc| |e] eqn:Hout;
      try discriminate Hnone.
    - destruct (parse_pids out) as [[|p ps]|e] eqn:Hpids; try discriminate Hnone.
      left. apply emitted_app. now rewrite (stop_empty os s out Hout Hpids).
    - right. apply emitted_app. now rewrite (stop_called_process_error os s rc Hout). }
  split; [|split; [|split; [|split; [|split; [|split]]]]].
  - destruct Hevs as [-> | ->]; [reflexivity|]. destruct (DEBUG_MODE s); reflexivity.
  - destruct Hevs as [-> | ->]; [reflexivity|]. destruct (DEBUG_MODE s); reflexivity.
  - intros out Hout. rewrite Hout in Hnone. cbn [matched_none] in Hnone.
    destruct (parse_pids out) as [[|p ps]|e] eqn:Hpids; try discriminate Hnone.
    apply emitted_app. now rewrite (stop_empty os s out Hout Hpids).
  - intros rc Hout. apply emitted_app. now rewrite (stop_called_process_error os s rc Hout).
  - discriminate.
  - discriminate.
  - intros os' s' out found_pids Hout Hpids Hlen Hall.
    destruct (stop_matched os' s' out found_pids Hout Hpids Hlen)
      as (k & evs & Hem & _ & _ & _ & _ & _ & Hzero).
    rewrite (Hzero Hall) in Hem. cbn [Nat.ltb Nat.leb] in Hem.
    rewrite Hem. eexists. rewrite !app_assoc. reflexivity.
Qed.

Lemma stop_vlc_process_no_match_witness :
  let os := const_os (Started 4242) (Output "") Signalled None in
  matched_none (os_check_output os (trace (fresh false)) ["pgrep"; "vlc"] false) = true
  /\ emitted (stop_vlc_process os) (fresh false) = [pgrep_vlc; Print none_running_msg].
Proof.
  cbv zeta. split; [reflexivity|].
  pose proof (stop_vlc_process_no_match
                (const_os (Started 4242) (Output "") Signalled None) (fresh false) eq_refl)
    as (_ & _ & H & _).
  exact (H "" eq_refl).
Defined.

(** C6.  When [pgrep] is not installed, the stop prints its two-line error
    and returns: no signal is sent, nothing is spawned and the tracked
    process is left as it was. *)
Theorem stop_vlc_process_pgrep_missing (os : OS) (s : state)
        (Hmissing : os_check_output os (trace s) ["pgrep"; "vlc"] false
                    = CheckFileNotFoundError) :
  let evs := emitted (stop_vlc_process os) s in
  evs = [pgrep_vlc; Print pgrep_missing_msg1; Print pgrep_missing_msg2]
  /\ kills evs = []
  /\ spawned evs = []
  /\ vlc_process (exec (stop_vlc_process os) s) = vlc_process s.
Proof.
  cbv zeta.
  rewrite (emitted_app _ _ [pgrep_vlc; Print pgrep_missing_msg1; Print pgrep_missing_msg2])
    by now rewrite (stop_file_not_found os s Hmissing).
  rewrite (stop_file_not_found os s Hmissing). repeat split; reflexivity.
Qed.

Lemma stop_vlc_process_pgrep_missing_witness :
  let os := const_os (Started 4242) CheckFileNotFoundError Signalled None in
  os_check_output os (trace (tracking false 4242)) ["pgrep"; "vlc"] false
    = CheckFileNotFoundError
  /\ kills (emitted (stop_vlc_process os) (tracking false 4242)) = []
  /\ vlc_process (exec (stop_vlc_process os) (tracking false 4242))
     = Some {| pid := 4242; returncode := None |}.
Proof.
  cbv zeta. split; [reflexivity|].
  pose proof (stop_vlc_process_pgrep_missing
                (const_os (Started 4242) CheckFileNotFoundError Signalled None)
                (tracking false 4242) eq_refl) as (_ & H2 & _ & H4).
  split; [exact H2|exact H4].
Defined.

(** ** get_vlc_status *)

Section Status.

Variable os : OS.

Lemma status_probe_run (s : state) :
  exec (status_probe os) s =
    {| DEBUG_MODE := DEBUG_MODE s;
       vlc_process := vlc_process s;
       trace := (trace s ++ pgrep_count true
                   :: probe_events (DEBUG_MODE s)
                        (os_check_output os (trace s) ["pgrep"; "-c"; "vlc"] true))%list |}.
Proof.
  unfold status_probe. destruct s as [[] t tr]; run;
    destruct (os_check_output os tr _ true); run; cbn [probe_events when]; now tidy.
Qed.

Lemma status_tracked_run (s : state) :
  exec (status_tracked os) s =
    {| DEBUG_MODE := DEBUG_MODE s;
       vlc_process := tracked_after os (trace s) (vlc_process s);
       trace := (trace s ++ tracked_events os (trace s) (DEBUG_MODE s) (vlc_process s))%list |}.
Proof.
  unfold status_tracked, tracked_after, tracked_events, poll_outcome.
  destruct s as [d [[p [rc|]]|] tr]; cbn [vlc_process trace DEBUG_MODE pid returncode].
  - destruct d; run; unfold poll; cbn [returncode pid]; run; cbn [when app];
      rewrite ?app_nil_r; reflexivity.
  - destruct d; run; unfold poll; cbn [returncode pid]; run;
      destruct (os_waitpid os tr p); run; cbn [returncode pid]; run; cbn [when];
      now tidy.
  - destruct d; run; cbn [when]; rewrite ?app_nil_r; reflexivity.
Qed.

Lemma status_summary_run (s : state) :
  exec (status_summary os) s =
    {| DEBUG_MODE := DEBUG_MODE s;
       vlc_process := vlc_process s;
       trace := (trace s ++ when (negb (DEBUG_MODE s))
                   [pgrep_count false;
                    Print (summary_msg
                             (os_check_output os (trace s) ["pgrep"; "-c"; "vlc"] false))])%list |}.
Proof.
  unfold status_summary, summary_msg. destruct s as [[] t tr]; run; cbn [when].
  - now rewrite app_nil_r.
  - destruct (os_check_output os tr _ false) as [out|rc| |e]; run; try now tidy.
    destruct (PyStr.int (PyStr.strip out)) as [c|]; [destruct (0 <? c)|]; run; now tidy.
Qed.

Lemma get_vlc_status_run (s : state) :
  exec (get_vlc_status os) s =
    exec (status_summary os) (exec (status_tracked os) (exec (status_probe os) s)).
Proof.
  unfold get_vlc_status, exec, bind.
  destruct (status_probe os s) as [u1 s1]. cbn [snd].
  destruct (status_tracked os s1) as [u2 s2]. reflexivity.
Qed.

(** The whole trace of a status query. *)
Lemma get_vlc_status_emitted (s : state) :
  let r1 := os_check_output os (trace s) ["pgrep"; "-c"; "vlc"] true in
  let tr1 := (trace s ++ pgrep_count true :: probe_events (DEBUG_MODE s) r1)%list in
  let tr2 := (tr1 ++ tracked_events os tr1 (DEBUG_MODE s) (vlc_process s))%list in
  emitted (get_vlc_status os) s =
    (pgrep_count true :: probe_events (DEBUG_MODE s) r1
     ++ tracked_events os tr1 (DEBUG_MODE s) (vlc_process s)
     ++ when (negb (DEBUG_MODE s))
          [pgrep_count false;
           Print (summary_msg (os_check_output os tr2 ["pgrep"; "-c"; "vlc"] false))])%list.
Proof.
  cbv zeta. apply emitted_app.
  rewrite get_vlc_status_run, status_summary_run, status_tracked_run, status_probe_run.
  cbn [trace DEBUG_MODE vlc_process]. rewrite <- !app_assoc. reflexivity.
Qed.

Lemma kills_probe_events (d : bool) (r : check_output_result) : kills (probe_events d r) = [].
Proof. destruct r, d; reflexivity. Qed.

Lemma kills_tracked_events (tr : list event) (d : bool) (t : option Popen) :
  kills (tracked_events os tr d t) = [].
Proof. destruct t as [[p [rc|]]|], d; reflexivity. Qed.

Lemma spawned_probe_events (d : bool) (r : check_output_result) :
  spawned (probe_events d r) = [].
Proof. destruct r, d; reflexivity. Qed.

Lemma spawned_tracked_events (tr : list event) (d : bool) (t : option Popen) :
  spawned (tracked_events os tr d t) = [].
Proof. destruct t as [[p [rc|]]|], d; reflexivity. Qed.

Lemma prints_tracked_events_quiet (tr : list event) (t : option Popen) :
  prints (tracked_events os tr false t) = [].
Proof. destruct t as [[p [rc|]]|]; reflexivity. Qed.

End Status.

(** Settles the equality of two status messages that differ. *)
Ltac differ_status H :=
  cbv [status_count_msg status_none_msg status_unknown_msg status_pgrep_missing_msg
       status_failed_msg found_some_debug_msg found_none_debug_msg tracked_active_msg
       tracked_terminated_msg untracked_msg] in H;
  cbn [append] in H; discriminate H.

(** ** Claims about get_vlc_status *)

(** C7, as the specification states it, fails: with [DEBUG_MODE] on and
    three processes counted by [pgrep -c], the query prints that at least
    one process runs and that nothing is tracked, and no count. *)
Lemma status_prints_no_count_under_debug :
  let os := const_os (Started 4242) (Output ("3" ++ PyStr.nl)) Signalled None in
  prints (emitted (get_vlc_status os) (fresh true))
    = [found_some_debug_msg; untracked_msg]
  /\ ~ status_reports_count os (fresh true) 3.
Proof.
  cbv zeta. split; [reflexivity|].
  intros H. assert (Hin := H (fun _ _ => eq_refl)). cbn in Hin.
  destruct Hin as [Hin|[Hin|[]]]; differ_status Hin.
Qed.

(** C7, amended.  With [DEBUG_MODE] off, when [pgrep -c] succeeds and its
    output reads as the integer M, the query prints one line: the count M if
    M is positive, and that no processes are running otherwise.  With
    [DEBUG_MODE] on it never prints either of these two lines. *)
Theorem get_vlc_status_reports_count (os : OS) (s : state) (out : string) (M : Z)
        (Hpgrep : forall tr b, os_check_output os tr ["pgrep"; "-c"; "vlc"] b = Output out)
        (Hcount : PyStr.int (PyStr.strip out) = Some M) :
  (DEBUG_MODE s = false ->
   prints (emitted (get_vlc_status os) s)
   = [if 0 <? M then status_count_msg M else status_none_msg])
  /\ (DEBUG_MODE s = true ->
      forall m, In m (prints (emitted (get_vlc_status os) s)) ->
                m <> status_none_msg /\ forall c, m <> status_count_msg c).
Proof.
  pose proof (get_vlc_status_emitted os s) as Hem. cbv zeta in Hem.
  rewrite !Hpgrep in Hem. rewrite Hem. clear Hem. split; intros Hd; rewrite Hd.
  - cbn [probe_events when negb app]. change (?x :: ?l) with ([x] ++ l)%list.
    rewrite !prints_app, prints_tracked_events_quiet.
    unfold summary_msg. rewrite Hcount. reflexivity.
  - cbn [probe_events when negb app]. rewrite app_nil_r.
    intros m Hin.
    assert (Hm : m = found_some_debug_msg \/ m = untracked_msg
                 \/ exists p, m = tracked_active_msg p \/ m = tracked_terminated_msg p).
    { revert Hin. unfold tracked_events.
      destruct (vlc_process s) as [[p [rc|]]|]; cbn [returncode pid app when prints flat_map In].
      - destruct (poll_outcome os _ _); intros [<-|[<-|[]]]; eauto.
      - destruct (poll_outcome os _ _); intros [<-|[<-|[]]]; eauto.
      - intros [<-|[<-|[]]]; eauto. }
    destruct Hm as [->|[->|[p [->| ->]]]]; (split; [|intros c]); intros H; differ_status H.
Qed.

Lemma get_vlc_status_reports_count_witness :
  let out := ("3" ++ PyStr.nl)%string in
  let os := const_os (Started 4242) (Output out) Signalled None in
  (forall tr b, os_check_output os tr ["pgrep"; "-c"; "vlc"] b = Output out)
  /\ PyStr.int (PyStr.strip out) = Some 3
  /\ prints (emitted (get_vlc_status os) (fresh false))
     = ["VLC status: 3 process(es) running."].
Proof.
  cbv zeta. split; [reflexivity|]. split; [reflexivity|].
  exact (proj1 (get_vlc_status_reports_count
                  (const_os (Started 4242) (Output ("3" ++ PyStr.nl)%string) Signalled None)
                  (fresh false) _ 3 (fun _ _ => eq_refl) eq_refl) eq_refl).
Defined.

(** With [DEBUG_MODE] off and [pgrep -c] leaving with exit status 1, the
    summary is that the status cannot be determined. *)
Example status_unknown_when_pgrep_finds_nothing :
  prints (emitted (get_vlc_status
                     (const_os (Started 4242) (CalledProcessError 1) Signalled None))
                  (fresh false))
  = [status_unknown_msg].
Proof. reflexivity. Qed.

(** C8, as the specification states it, fails: a query made while a
    tracked player has exited drops it. *)
Lemma status_drops_exited_player :
  let os := const_os (Started 4242) (CalledProcessError 1) Signalled (Some 0) in
  vlc_process (tracking false 4242) = Some {| pid := 4242; returncode := None |}
  /\ vlc_process (exec (get_vlc_status os) (tracking false 4242)) = None
  /\ ~ status_changes_nothing os (tracking false 4242).
Proof.
  cbv zeta. split; [reflexivity|]. split; [reflexivity|].
  intros [_ H]. discriminate H.
Qed.

(** C8, amended.  A status query sends no signal, spawns nothing and leaves
    [DEBUG_MODE] alone.  It leaves the tracked process as it was, except
    that a tracked process whose [poll] reports an exit is dropped; with
    nothing tracked, nothing is tracked afterwards. *)
Theorem get_vlc_status_effects (os : OS) (s : state) :
  let s' := exec (get_vlc_status os) s in
  let evs := emitted (get_vlc_status os) s in
  kills evs = []
  /\ spawned evs = []
  /\ DEBUG_MODE s' = DEBUG_MODE s
  /\ trace s' = (trace s ++ evs)%list
  /\ vlc_process s' = tracked_after os (trace (exec (status_probe os) s)) (vlc_process s)
  /\ match vlc_process s with
     | None => vlc_process s' = None
     | Some p =>
         match poll_outcome os (trace (exec (status_probe os) s)) p with
         | None => vlc_process s' = Some p
         | Some _ => vlc_process s' = None
         end
     end.
Proof.
  cbv zeta.
  assert (Hv : vlc_process (exec (get_vlc_status os) s)
               = tracked_after os (trace (exec (status_probe os) s)) (vlc_process s)).
  { rewrite get_vlc_status_run, status_summary_run, status_tracked_run, status_probe_run.
    reflexivity. }
  pose proof (get_vlc_status_emitted os s) as Hem. cbv zeta in Hem.
  split; [|split; [|split; [|split; [|split]]]].
  - rewrite Hem. change (?x :: ?l) with ([x] ++ l)%list.
    rewrite !kills_app, kills_probe_events, kills_tracked_events.
    destruct (DEBUG_MODE s); reflexivity.
  - rewrite Hem. change (?x :: ?l) with ([x] ++ l)%list.
    rewrite !spawned_app, spawned_probe_events, spawned_tracked_events.
    destruct (DEBUG_MODE s); reflexivity.
  - rewrite get_vlc_status_run, status_summary_run, status_tracked_run, status_probe_run.
    reflexivity.
  - rewrite Hem.
    rewrite get_vlc_status_run, status_summary_run, status_tracked_run, status_probe_run.
    cbn [trace DEBUG_MODE vlc_process]. rewrite <- !app_assoc. reflexivity.
  - exact Hv.
  - rewrite Hv. unfold tracked_after. destruct (vlc_process s) as [p|]; [|reflexivity].
    destruct (poll_outcome os _ p); reflexivity.
Qed.

(** ** Text: strip, split, join, int and str *)

Lemma pid_char_no_space (c : ascii) :
  is_pid_char c = true ->
  PyStr.isspace c = false /\ PyStr.isspace_c c = false /\ Ascii.eqb c PyStr.LF = false.
Proof.
  destruct c as [[] [] [] [] [] [] [] []]; vm_compute; intuition congruence.
Qed.

Lemma digits_of_uint_acc (d : Decimal.uint) :
  forall acc : positive,
    PyStr.digits (NilEmpty.string_of_uint d) true (Z.pos acc)
    = Some (Z.pos (Pos.of_uint_acc d acc)).
Proof.
  induction d; intros acc; cbn [NilEmpty.string_of_uint PyStr.digits Pos.of_uint_acc];
    try reflexivity;
    match goal with
    | |- context [PyStr.isdigit ?c] => change (PyStr.isdigit c) with true; cbv iota
    end;
    match goal with
    | |- context [PyStr.digit_val ?c] =>
        let v := eval vm_compute in (PyStr.digit_val c) in
        change (PyStr.digit_val c) with v
    end;
    match goal with
    | |- PyStr.digits _ true ?z = Some (Z.pos (Pos.of_uint_acc _ ?p)) =>
        replace z with (Z.pos p) by lia
    end; apply IHd.
Qed.

Lemma digits_of_uint (d : Decimal.uint) :
  PyStr.digits (NilEmpty.string_of_uint d) true 0 = Some (Z.of_N (Pos.of_uint d)).
Proof.
  induction d; cbn [NilEmpty.string_of_uint PyStr.digits Pos.of_uint];
    try reflexivity;
    match goal with
    | |- context [PyStr.isdigit ?c] => change (PyStr.isdigit c) with true; cbv iota
    end;
    match goal with
    | |- context [PyStr.digit_val ?c] =>
        let v := eval vm_compute in (PyStr.digit_val c) in
        change (PyStr.digit_val c) with v
    end; cbn [Z.mul Z.add Z.of_N]; try exact IHd; apply digits_of_uint_acc.
Qed.

(** A decimal numeral starts with a digit, so the flag is not looked at. *)
Lemma digits_first (d : Decimal.uint) (prev : bool) (acc : Z) :
  d <> Decimal.Nil ->
  PyStr.digits (NilEmpty.string_of_uint d) prev acc
  = PyStr.digits (NilEmpty.string_of_uint d) true acc.
Proof.
  destruct d; intros H; [now elim H|reflexivity..].
Qed.

Lemma all_chars_uint (d : Decimal.uint) :
  all_chars PyStr.isdigit (NilEmpty.string_of_uint d) = true.
Proof.
  induction d; cbn [NilEmpty.string_of_uint all_chars]; try reflexivity;
    rewrite IHd; reflexivity.
Qed.

Lemma rstrip_by_ends_clean (sp : ascii -> bool) (s : string) :
  ends_clean sp s = true -> PyStr.rstrip_by sp s = s.
Proof.
  induction s as [|c s IH]; [reflexivity|].
  cbn [ends_clean PyStr.rstrip_by]. destruct s as [|c' s'].
  - cbn [PyStr.rstrip_by]. now destruct (sp c).
  - intros H. rewrite (IH H). reflexivity.
Qed.

Lemma rstrip_by_spaces (sp : ascii -> bool) (s t : string) :
  all_chars sp t = true -> PyStr.rstrip_by sp (s ++ t) = PyStr.rstrip_by sp s.
Proof.
  intros Ht. induction s as [|c s IH].
  - cbn [append]. induction t as [|c t IHt]; [reflexivity|].
    cbn [all_chars] in Ht. apply andb_prop in Ht as [Hc Ht].
    cbn [PyStr.rstrip_by]. now rewrite (IHt Ht), Hc.
  - cbn [append PyStr.rstrip_by]. now rewrite IH.
Qed.

Lemma ends_clean_all (sp P : ascii -> bool) (s : string) :
  (forall c, P c = true -> sp c = false) ->
  all_chars P s = true -> ends_clean sp s = true.
Proof.
  intros HP. induction s as [|c s IH]; [reflexivity|].
  cbn [all_chars ends_clean]. intros H. apply andb_prop in H as [Hc Hs].
  destruct s; [now rewrite (HP c Hc)|now apply IH].
Qed.

Lemma strip_by_all (sp P : ascii -> bool) (s : string) :
  (forall c, P c = true -> sp c = false) ->
  all_chars P s = true -> PyStr.rstrip_by sp (PyStr.lstrip_by sp s) = s.
Proof.
  intros HP Hs.
  assert (Hl : PyStr.lstrip_by sp s = s).
  { destruct s as [|c s]; [reflexivity|]. cbn [all_chars] in Hs.
    apply andb_prop in Hs as [Hc _]. cbn [PyStr.lstrip_by]. now rewrite (HP c Hc). }
  rewrite Hl. apply rstrip_by_ends_clean. now apply ends_clean_all with P.
Qed.

Lemma all_chars_weaken (P Q : ascii -> bool) (s : string) :
  (forall c, P c = true -> Q c = true) -> all_chars P s = true -> all_chars Q s = true.
Proof.
  intros HPQ. induction s as [|c s IH]; [reflexivity|]. cbn [all_chars].
  intros H. apply andb_prop in H as [Hc Hs]. now rewrite (HPQ c Hc), IH.
Qed.

(** The three shapes of [str(z)]. *)
Lemma str_of_int_shape (z : Z) :
  exists d : Decimal.uint,
    d <> Decimal.Nil
    /\ Z.of_N (Pos.of_uint d) = Z.abs z
    /\ PyStr.str_of_int z
       = if z <? 0 then String "-" (NilEmpty.string_of_uint d)
         else NilEmpty.string_of_uint d.
Proof.
  destruct z as [|p|p].
  - exists (Decimal.D0 Decimal.Nil). repeat split. discriminate.
  - exists (Pos.to_uint p). split; [apply Unsigned.to_uint_nonnil|].
    split; [now rewrite Unsigned.of_to|].
    unfold PyStr.str_of_int. cbn [Z.to_int NilZero.string_of_int Z.ltb Z.compare].
    unfold NilZero.string_of_uint.
    pose proof (Unsigned.to_uint_nonnil p). now destruct (Pos.to_uint p).
  - exists (Pos.to_uint p). split; [apply Unsigned.to_uint_nonnil|].
    split; [now rewrite Unsigned.of_to|].
    unfold PyStr.str_of_int. cbn [Z.to_int NilZero.string_of_int Z.ltb Z.compare].
    unfold NilZero.string_of_uint.
    pose proof (Unsigned.to_uint_nonnil p). now destruct (Pos.to_uint p).
Qed.

Lemma str_of_int_chars (z : Z) :
  all_chars is_pid_char (PyStr.str_of_int z) = true
  /\ PyStr.truthy (PyStr.str_of_int z) = true.
Proof.
  destruct (str_of_int_shape z) as (d & Hd & _ & ->).
  assert (Hall : all_chars is_pid_char (NilEmpty.string_of_uint d) = true).
  { apply all_chars_weaken with PyStr.isdigit; [|apply all_chars_uint].
    intros c Hc. unfold is_pid_char. now rewrite Hc. }
  destruct (z <? 0).
  - cbn [all_chars PyStr.truthy]. now rewrite Hall.
  - split; [exact Hall|]. destruct d; [now elim Hd|reflexivity..].
Qed.

(** [int(str(z)) == z] *)
Lemma int_str_of_int (z : Z) : PyStr.int (PyStr.str_of_int z) = Some z.
Proof.
  unfold PyStr.int.
  rewrite (strip_by_all PyStr.isspace_c is_pid_char)
    by (try apply str_of_int_chars; intros c Hc; apply (pid_char_no_space c Hc)).
  destruct (str_of_int_shape z) as (d & Hd & Hv & ->).
  destruct (Z.ltb_spec z 0) as [Hneg|Hpos].
  - rewrite (digits_first d false 0 Hd), digits_of_uint, Hv. cbn [option_map].
    f_equal. lia.
  - assert (Hdig : PyStr.digits (NilEmpty.string_of_uint d) false 0 = Some z).
    { rewrite (digits_first d false 0 Hd), digits_of_uint, Hv. f_equal. lia. }
    destruct d; [now elim Hd|exact Hdig..].
Qed.

Lemma split_no_sep (sep : ascii) (l : string) :
  all_chars (not_char sep) l = true -> PyStr.split sep l = [l].
Proof.
  induction l as [|c l IH]; [reflexivity|]. cbn [all_chars PyStr.split]. intros H.
  apply andb_prop in H as [Hc Hl]. unfold not_char in Hc.
  apply negb_true_iff in Hc. now rewrite Hc, (IH Hl).
Qed.

Lemma split_app_sep (sep : ascii) (l r : string) :
  all_chars (not_char sep) l = true ->
  PyStr.split sep (l ++ String sep r) = l :: PyStr.split sep r.
Proof.
  induction l as [|c l IH]; cbn [all_chars PyStr.split append]; intros H.
  - now rewrite Ascii.eqb_refl.
  - apply andb_prop in H as [Hc Hl]. unfold not_char in Hc.
    apply negb_true_iff in Hc. now rewrite Hc, (IH Hl).
Qed.

(** [sep.join(lines).split(sep) == lines] for lines free of [sep]. *)
Lemma split_join (sep : ascii) (lines : list string) :
  lines <> [] ->
  Forall (fun l => all_chars (not_char sep) l = true) lines ->
  PyStr.split sep (PyStr.join (String sep "") lines) = lines.
Proof.
  intros Hne Hall. induction Hall as [|l rest Hl Hrest IH]; [now elim Hne|].
  destruct rest as [|l' rest'].
  - cbn. now apply split_no_sep.
  - change (PyStr.join (String sep "") (l :: l' :: rest'))
      with (l ++ String sep (PyStr.join (String sep "") (l' :: rest'))).
    rewrite (split_app_sep _ _ _ Hl), IH; [reflexivity|discriminate].
Qed.

Lemma ends_clean_app (sp : ascii -> bool) (s t : string) :
  PyStr.truthy t = true -> ends_clean sp (s ++ t) = ends_clean sp t.
Proof.
  intros Ht. induction s as [|c s IH]; [reflexivity|].
  cbn [append ends_clean]. rewrite <- IH.
  destruct (s ++ t) eqn:E; [|reflexivity].
  destruct s; cbn in E; [subst t; discriminate Ht|discriminate E].
Qed.

Lemma join_truthy (sep : string) (lines : list string) :
  lines <> [] ->
  Forall (fun l => PyStr.truthy l = true) lines ->
  PyStr.truthy (PyStr.join sep lines) = true.
Proof.
  intros Hne Hall. destruct Hall as [|l rest Hl _]; [now elim Hne|].
  destruct l; [discriminate Hl|]. destruct rest; reflexivity.
Qed.

Lemma ends_clean_join (sp : ascii -> bool) (sep : string) (lines : list string) :
  lines <> [] ->
  Forall (fun l => PyStr.truthy l = true /\ ends_clean sp l = true) lines ->
  ends_clean sp (PyStr.join sep lines) = true.
Proof.
  intros Hne Hall. induction Hall as [|l rest [Hl Hc] Hrest IH]; [now elim Hne|].
  destruct rest as [|l' rest']; [exact Hc|].
  change (PyStr.join sep (l :: l' :: rest'))
    with (l ++ sep ++ PyStr.join sep (l' :: rest')).
  assert (Hj : PyStr.truthy (PyStr.join sep (l' :: rest')) = true).
  { apply join_truthy; [discriminate|]. eapply Forall_impl; [|exact Hrest]. now intros a [Ha _]. }
  rewrite ends_clean_app.
  - rewrite ends_clean_app by exact Hj. apply IH. discriminate.
  - destruct sep; [exact Hj|reflexivity].
Qed.

Lemma int_all_str (pids : list Z) : int_all (map PyStr.str_of_int pids) = inl pids.
Proof.
  induction pids as [|z pids IH]; [reflexivity|].
  cbn [map int_all]. now rewrite int_str_of_int, IH.
Qed.

(** The output of [pgrep], one process id per line, parses back to the
    list of ids. *)
Lemma parse_pids_pgrep_lines (pids : list Z) : parse_pids (pgrep_lines pids) = inl pids.
Proof.
  destruct pids as [|z pids]; [reflexivity|].
  set (lines := map PyStr.str_of_int (z :: pids)).
  assert (Hne : lines <> []) by discriminate.
  assert (Hlines : Forall (fun l => all_chars is_pid_char l = true /\ PyStr.truthy l = true) lines).
  { unfold lines. apply Forall_forall. intros l Hl. apply in_map_iff in Hl as (x & <- & _).
    apply str_of_int_chars. }
  assert (Hbody : PyStr.truthy (PyStr.join PyStr.nl lines) = true).
  { apply join_truthy; [exact Hne|]. eapply Forall_impl; [|exact Hlines]. now intros a [_ Ha]. }
  assert (Hstrip : PyStr.strip (pgrep_lines (z :: pids)) = PyStr.join PyStr.nl lines).
  { unfold PyStr.strip, pgrep_lines. fold lines.
    assert (Hl : PyStr.lstrip_by PyStr.isspace (PyStr.join PyStr.nl lines ++ PyStr.nl)
                 = PyStr.join PyStr.nl lines ++ PyStr.nl).
    { unfold lines. cbn [map].
      destruct (str_of_int_chars z) as [Hc Ht].
      destruct (PyStr.str_of_int z) as [|c s] eqn:E; [discriminate Ht|].
      cbn [all_chars] in Hc. apply andb_prop in Hc as [Hc _].
      destruct (pid_char_no_space c Hc) as [Hsp _].
      destruct (map PyStr.str_of_int pids); cbn; now rewrite Hsp. }
    rewrite Hl, rstrip_by_spaces by reflexivity.
    apply rstrip_by_ends_clean, ends_clean_join; [exact Hne|].
    eapply Forall_impl; [|exact Hlines]. intros a [Ha Ht]. split; [exact Ht|].
    apply ends_clean_all with is_pid_char; [|exact Ha].
    intros c Hc. apply (pid_char_no_space c Hc). }
  unfold parse_pids. rewrite Hstrip, Hbody.
  change PyStr.nl with (String PyStr.LF ""). rewrite split_join.
  - apply int_all_str.
  - exact Hne.
  - eapply Forall_impl; [|exact Hlines]. intros a [Ha _].
    apply all_chars_weaken with is_pid_char; [|exact Ha].
    intros c Hc. unfold not_char. now rewrite (proj2 (proj2 (pid_char_no_space c Hc))).
Qed.

(** ** More about start_vlc *)

Lemma silence_app (a b : list event) : silence (a ++ b) = (silence a ++ silence b)%list.
Proof. apply filter_app. Qed.

Lemma silence_prints (evs : list event) : forallb is_print evs = true -> silence evs = [].
Proof.
  induction evs as [|e evs IH]; [reflexivity|]. cbn [forallb silence filter].
  intros H. apply andb_prop in H as [He Hevs]. rewrite He. exact (IH Hevs).
Qed.

Lemma silence_when_banner (b : bool) (media_path : string) (f : format) (m : list string) :
  silence (when b (banner media_path f ++ map Print m)) = [].
Proof.
  apply silence_prints. destruct b; [|reflexivity]. cbn [when banner app forallb is_print andb].
  induction m; [reflexivity|assumption].
Qed.

Lemma silence_before_spawn (media_path : string) (f : format) (s : state) :
  silence (before_spawn media_path f s) = silence (trace s).
Proof.
  unfold before_spawn. rewrite silence_app.
  rewrite (silence_when_banner _ _ _ [(PyStr.nl ++ "Executing command...")%string]).
  apply app_nil_r.
Qed.

Lemma silence_after_spawn (b : bool) (r : popen_result) :
  silence (snd (after_spawn b r)) = if is_started r then [Sleep] else [].
Proof. destruct r, b; reflexivity. Qed.

Lemma vlc_options_unknown (media_format : string) :
  existsb (String.eqb media_format) ["photo"; "video"; "gif"] = false ->
  vlc_options media_format = None.
Proof.
  cbn [existsb]. unfold vlc_options.
  destruct (media_format =? "photo")%string; [discriminate|].
  destruct (media_format =? "video")%string; [discriminate|].
  destruct (media_format =? "gif")%string; [discriminate|reflexivity].
Qed.

(** X1.  A format string other than photo, video and gif (the comparison
    is exact, case included) makes the start print the unknown-format error
    and nothing else: no command is built or spawned, dry run or not, and
    the check for a tracked process is never reached. *)
Theorem start_vlc_unknown_format (os : OS) (s : state) (media_path media_format : string)
        (dry : bool)
        (Hunknown : existsb (String.eqb media_format) ["photo"; "video"; "gif"] = false) :
  emitted (start_vlc os media_path media_format dry) s
    = [Print (unknown_format_msg media_format)]
  /\ vlc_process (exec (start_vlc os media_path media_format dry) s) = vlc_process s
  /\ DEBUG_MODE (exec (start_vlc os media_path media_format dry) s) = DEBUG_MODE s.
Proof.
  pose proof (vlc_options_unknown _ Hunknown) as Hopt.
  rewrite (start_vlc_unknown_emitted os _ _ _ _ Hopt), (start_vlc_unknown os _ _ _ _ Hopt).
  repeat split; reflexivity.
Qed.

Lemma start_vlc_unknown_format_witness :
  let os := const_os (Started 4243) (CalledProcessError 1) Signalled None in
  existsb (String.eqb "GIF") ["photo"; "video"; "gif"] = false
  /\ emitted (start_vlc os "/tmp/a.gif" "GIF" false) (tracking false 4242)
     = [Print "Error: Unknown format 'GIF'. Supported formats are 'gif', 'photo', 'video'."].
Proof.
  cbv zeta. split; [reflexivity|].
  exact (proj1 (start_vlc_unknown_format
                  (const_os (Started 4243) (CalledProcessError 1) Signalled None)
                  (tracking false 4242) "/tmp/a.gif" "GIF" false eq_refl)).
Defined.

(** X2.  When nothing is tracked and [Popen] returns a process, the start
    tracks it under its pid, not yet polled, and its system calls are the
    spawn followed by one sleep; with [DEBUG_MODE] off it prints nothing. *)
Theorem start_vlc_success (os : OS) (s : state) (media_path : string) (f : format) (p : Z)
        (Huntracked : vlc_process s = None)
        (Hstarted : os_popen os (before_spawn media_path f s) (spec_command media_path f)
                    = Started p) :
  let evs := emitted (start_vlc os media_path (format_name f) false) s in
  vlc_process (exec (start_vlc os media_path (format_name f) false) s)
    = Some {| pid := p; returncode := None |}
  /\ silence evs = [Spawn (spec_command media_path f); Sleep]
  /\ (DEBUG_MODE s = false -> evs = [Spawn (spec_command media_path f); Sleep]).
Proof.
  cbv zeta. rewrite (start_vlc_untracked_emitted os _ _ _ Huntracked),
    (start_vlc_untracked os _ _ _ Huntracked). cbv zeta. rewrite Hstarted.
  cbn [vlc_process after_spawn fst snd]. split; [reflexivity|]. split.
  - destruct (DEBUG_MODE s); reflexivity.
  - intros ->. reflexivity.
Qed.

Lemma start_vlc_success_witness :
  let os := const_os (Started 4242) (CalledProcessError 1) Signalled None in
  vlc_process loaded = None
  /\ os_popen os (before_spawn "/tmp/clip.mp4" video loaded)
              (spec_command "/tmp/clip.mp4" video) = Started 4242
  /\ emitted (start_vlc os "/tmp/clip.mp4" "video" false) loaded
     = [Spawn ["cvlc"; "/tmp/clip.mp4"; "--loop"; "--no-osd"]; Sleep].
Proof.
  cbv zeta. split; [reflexivity|]. split; [reflexivity|].
  pose proof (start_vlc_success
                (const_os (Started 4242) (CalledProcessError 1) Signalled None)
                loaded "/tmp/clip.mp4" video 4242 eq_refl eq_refl) as (_ & _ & H).
  exact (H eq_refl).
Defined.

(** X3.  When [Popen] raises, the start still made its one spawn attempt,
    does not sleep, and ends by printing an error even with [DEBUG_MODE]
    off: the missing-binary message for [FileNotFoundError], and for any
    other exception a different message that carries its text. *)
Theorem start_vlc_failure_reported (os : OS) (s : state) (media_path : string) (f : format)
        (Huntracked : vlc_process s = None)
        (Hraises : is_started (os_popen os (before_spawn media_path f s)
                                        (spec_command media_path f)) = false) :
  let r := os_popen os (before_spawn media_path f s) (spec_command media_path f) in
  let evs := emitted (start_vlc os media_path (format_name f) false) s in
  silence evs = [Spawn (spec_command media_path f)]
  /\ sleeps evs = 0%nat
  /\ (r = PopenFileNotFoundError -> exists pre, evs = (pre ++ [Print cvlc_missing_msg])%list)
  /\ (forall e, r = PopenException e ->
        exists pre, evs = (pre ++ [Print (start_failed_msg e)])%list)
  /\ (forall e, cvlc_missing_msg <> start_failed_msg e).
Proof.
  cbv zeta. rewrite (start_vlc_untracked_emitted os _ _ _ Huntracked).
  destruct (os_popen os _ _) as [p| |e]; [discriminate Hraises| |];
    cbn [after_spawn snd]; (split; [|split; [|split; [|split]]]);
    try (destruct (DEBUG_MODE s); reflexivity); try discriminate.
  - intros _. eexists. rewrite app_assoc. reflexivity.
  - intros e' [= <-]. eexists. rewrite app_assoc. reflexivity.
Qed.

Lemma start_vlc_failure_reported_witness :
  let os := const_os (PopenException "[Errno 13] Permission denied: 'cvlc'")
                     (CalledProcessError 1) Signalled None in
  vlc_process loaded = None
  /\ is_started (os_popen os (before_spawn "/tmp/a.gif" gif loaded)
                          (spec_command "/tmp/a.gif" gif)) = false
  /\ sleeps (emitted (start_vlc os "/tmp/a.gif" "gif" false) loaded) = 0%nat.
Proof.
  cbv zeta. split; [reflexivity|]. split; [reflexivity|].
  exact (proj1 (proj2 (start_vlc_failure_reported
                         (const_os (PopenException "[Errno 13] Permission denied: 'cvlc'")
                                   (CalledProcessError 1) Signalled None)
                         loaded "/tmp/a.gif" gif eq_refl eq_refl))).
Defined.

(** X4.  For a path within ASCII, which [print] can always encode,
    [DEBUG_MODE] changes what a start prints and nothing else: on an
    operating system that does not read the terminal, two starts from
    states that made the same system calls and track the same process make
    the same system calls and end tracking the same process. *)
Theorem start_vlc_debug_only_prints (os : OS) (s1 s2 : state)
        (media_path media_format : string) (dry : bool)
        (Hpath : all_chars is_ascii media_path = true)
        (Hblind : print_blind os)
        (Hsame : same_calls s1 s2) :
  same_calls (exec (start_vlc os media_path media_format dry) s1)
             (exec (start_vlc os media_path media_format dry) s2).
Proof.
  destruct Hsame as [Htr Hv]. destruct Hblind as (Hpopen & _).
  destruct (vlc_options media_format) as [options|] eqn:Hopt.
  - destruct (supported_format _ _ Hopt) as [f ->]. destruct dry.
    + rewrite !start_vlc_dry. split; cbn [trace vlc_process]; [|exact Hv].
      rewrite !silence_app.
      rewrite !(silence_when_banner _ _ _
                  [(PyStr.nl ++ "Performing a dry run (command not executed).")%string]).
      now rewrite Htr.
    + destruct (vlc_process s1) as [p|] eqn:H1; symmetry in Hv.
      * rewrite (start_vlc_tracked os _ _ _ _ H1), (start_vlc_tracked os _ _ _ _ Hv).
        split; cbn [trace vlc_process]; [|reflexivity].
        rewrite !silence_app.
        pose proof (fun b => silence_when_banner b media_path f []) as Hb.
        cbn [map] in Hb. rewrite !app_nil_r in Hb. rewrite !Hb. now rewrite Htr.
      * rewrite (start_vlc_untracked os _ _ _ H1), (start_vlc_untracked os _ _ _ Hv).
        cbv zeta.
        assert (Hr : os_popen os (before_spawn media_path f s1) (spec_command media_path f)
                     = os_popen os (before_spawn media_path f s2) (spec_command media_path f)).
        { rewrite (Hpopen (before_spawn media_path f s1)),
            (Hpopen (before_spawn media_path f s2)), !silence_before_spawn. now rewrite Htr. }
        rewrite Hr. clear Hr. split; cbn [trace vlc_process].
        -- rewrite !silence_app, !silence_before_spawn, !silence_after_spawn. now rewrite Htr.
        -- destruct (os_popen os _ _); reflexivity.
  - rewrite !(start_vlc_unknown os _ _ _ _ Hopt). split; cbn [trace vlc_process]; [|exact Hv].
    rewrite !silence_app. now rewrite Htr.
Qed.

Lemma start_vlc_debug_only_prints_witness :
  let os := const_os (Started 4242) (CalledProcessError 1) Signalled None in
  all_chars is_ascii "/tmp/a.gif" = true
  /\ print_blind os
  /\ same_calls (fresh true) (fresh false)
  /\ same_calls (exec (start_vlc os "/tmp/a.gif" "gif" false) (fresh true))
                (exec (start_vlc os "/tmp/a.gif" "gif" false) (fresh false)).
Proof.
  cbv zeta.
  assert (Hb : print_blind (const_os (Started 4242) (CalledProcessError 1) Signalled None))
    by (repeat split; reflexivity).
  assert (Hs : same_calls (fresh true) (fresh false)) by (split; reflexivity).
  split; [reflexivity|]. split; [exact Hb|]. split; [exact Hs|].
  exact (start_vlc_debug_only_prints _ _ _ "/tmp/a.gif" "gif" false eq_refl Hb Hs).
Defined.

(** ** More about stop_vlc_process *)

Lemma exec_bind {A B} (m : M A) (k : A -> M B) (s : state) :
  exec (bind m k) s = exec (k (fst (m s))) (snd (m s)).
Proof. unfold exec, bind. now destruct (m s). Qed.

Lemma exec_seq {A B} (m : M A) (k : M B) (s : state) :
  exec (m ;; k) s = exec k (snd (m s)).
Proof. apply exec_bind. Qed.

Lemma fst_bind {A B} (m : M A) (k : A -> M B) (s : state) :
  fst (bind m k s) = fst (k (fst (m s)) (snd (m s))).
Proof. unfold bind. now destruct (m s). Qed.

Lemma same_calls_sym (s1 s2 : state) : same_calls s1 s2 -> same_calls s2 s1.
Proof. intros [H1 H2]. now split. Qed.

Lemma same_calls_trans (s1 s2 s3 : state) :
  same_calls s1 s2 -> same_calls s2 s3 -> same_calls s1 s3.
Proof. intros [H1 H2] [H3 H4]. split; congruence. Qed.

Lemma print_same_calls (m : string) (s : state) : same_calls (exec (print m) s) s.
Proof.
  split; [|reflexivity]. cbn. rewrite silence_app. apply app_nil_r.
Qed.

Lemma debug_print_same_calls (m : string) (s : state) :
  same_calls (exec (debug_print m) s) s.
Proof.
  destruct s as [[] t tr]; [apply print_same_calls|now split].
Qed.

Lemma forget_tracked_same_calls (s1 s2 : state) :
  silence (trace s1) = silence (trace s2) ->
  same_calls (exec forget_tracked s1) (exec forget_tracked s2).
Proof.
  intros H. unfold exec. rewrite !forget_tracked_run. now split.
Qed.

Section StopBlind.

Variable os : OS.
Hypothesis Hblind : print_blind os.

Lemma signal_one_blind (k : nat) (p : Z) (s1 s2 : state) :
  same_calls s1 s2 ->
  fst (signal_one os k p s1) = fst (signal_one os k p s2)
  /\ same_calls (snd (signal_one os k p s1)) (snd (signal_one os k p s2)).
Proof.
  intros [Htr Hv]. destruct Hblind as (_ & _ & Hkill & _).
  assert (Hr : os_kill os (trace s1) p = os_kill os (trace s2) p)
    by (rewrite (Hkill (trace s1)), (Hkill (trace s2)); now rewrite Htr).
  unfold signal_one. destruct s1 as [d1 t1 tr1], s2 as [d2 t2 tr2].
  cbn [trace vlc_process] in *. subst t2.
  destruct d1, d2; run; rewrite Hr; destruct (os_kill os tr2 p); run;
    (split; [reflexivity|]); split; cbn [trace vlc_process]; try reflexivity;
    rewrite !silence_app, Htr; cbn; rewrite ?app_nil_r; reflexivity.
Qed.

Lemma signal_all_blind (found_pids : list Z) :
  forall (k : nat) (s1 s2 : state),
    same_calls s1 s2 ->
    fst (signal_all os found_pids k s1) = fst (signal_all os found_pids k s2)
    /\ same_calls (snd (signal_all os found_pids k s1)) (snd (signal_all os found_pids k s2)).
Proof.
  induction found_pids as [|p rest IH]; intros k s1 s2 Hsame; [now split|].
  cbn [signal_all]. unfold bind.
  destruct (signal_one_blind k p s1 s2 Hsame) as [Hk Hs].
  destruct (signal_one os k p s1) as [k1 s1'], (signal_one os k p s2) as [k2 s2'].
  cbn [fst snd] in Hk, Hs. subst k2. now apply IH.
Qed.

Lemma stop_found_blind (found_pids : list Z) (s1 s2 : state) :
  same_calls s1 s2 ->
  same_calls (exec (stop_found os found_pids) s1) (exec (stop_found os found_pids) s2).
Proof.
  intros Hsame. destruct found_pids as [|p ps]; unfold stop_found.
  - rewrite ?exec_seq, ?exec_bind. apply forget_tracked_same_calls.
    transitivity (silence (trace s1)); [apply print_same_calls|].
    transitivity (silence (trace s2)); [apply Hsame|symmetry; apply print_same_calls].
  - rewrite ?exec_seq, ?exec_bind. set (m1 := ("Found 'vlc' processes with PIDs: " ++ _)%string).
    set (a1 := snd (debug_print m1 s1)). set (a2 := snd (debug_print m1 s2)).
    rewrite ?exec_seq, ?exec_bind.
    set (b1 := snd (debug_print "Attempting to terminate..." a1)).
    set (b2 := snd (debug_print "Attempting to terminate..." a2)).
    assert (Hb : same_calls b1 b2).
    { apply same_calls_trans with a1; [apply debug_print_same_calls|].
      apply same_calls_trans with s1; [apply debug_print_same_calls|].
      apply same_calls_trans with s2; [exact Hsame|].
      apply same_calls_trans with a2; apply same_calls_sym, debug_print_same_calls. }
    rewrite ?exec_seq, ?exec_bind.
    destruct (signal_all_blind (p :: ps) 0%nat b1 b2 Hb) as [Hk Hc].
    rewrite <- Hk. set (k := fst (signal_all os (p :: ps) 0 b1)) in *.
    set (c1 := snd (signal_all os (p :: ps) 0 b1)) in *.
    set (c2 := snd (signal_all os (p :: ps) 0 b2)) in *.
    destruct (0 <? k)%nat.
    + rewrite ?exec_seq, ?exec_bind. apply forget_tracked_same_calls.
      transitivity (silence (trace c1)); [apply print_same_calls|].
      transitivity (silence (trace c2)); [apply Hc|symmetry; apply print_same_calls].
    + apply same_calls_trans with c1; [apply print_same_calls|].
      apply same_calls_trans with c2; [exact Hc|apply same_calls_sym, print_same_calls].
Qed.

End StopBlind.

(** X5.  [DEBUG_MODE] changes what a stop prints and nothing else: on an
    operating system that does not read the terminal, two stops from states
    that made the same system calls and track the same process make the same
    system calls, [pgrep] and every signal, and end tracking the same
    process. *)
Theorem stop_vlc_process_debug_only_prints (os : OS) (s1 s2 : state)
        (Hblind : print_blind os)
        (Hsame : same_calls s1 s2) :
  same_calls (exec (stop_vlc_process os) s1) (exec (stop_vlc_process os) s2).
Proof.
  unfold stop_vlc_process. rewrite ?exec_seq, ?exec_bind. cbn [check_output fst snd].
  assert (Hr : os_check_output os (trace s1) ["pgrep"; "vlc"] false
               = os_check_output os (trace s2) ["pgrep"; "vlc"] false).
  { destruct Hblind as (_ & Hc & _). destruct Hsame as [Htr _].
    rewrite (Hc (trace s1)), (Hc (trace s2)). now rewrite Htr. }
  rewrite Hr. clear Hr.
  match goal with
  | |- same_calls (exec _ ?a1) (exec _ ?a2) =>
      assert (Ha : same_calls a1 a2)
        by (destruct Hsame as [Htr Hv]; split; cbn [trace vlc_process]; [|exact Hv];
            rewrite !silence_app; now rewrite Htr);
      set (t1 := a1) in *; set (t2 := a2) in *
  end.
  destruct (os_check_output os (trace s2) _ false) as [out|rc| |e].
  - destruct (parse_pids out) as [found_pids|e].
    + now apply stop_found_blind.
    + apply same_calls_trans with t1; [apply print_same_calls|].
      apply same_calls_trans with t2; [exact Ha|apply same_calls_sym, print_same_calls].
  - rewrite ?exec_seq, ?exec_bind. apply forget_tracked_same_calls.
    transitivity (silence (trace t1)); [apply debug_print_same_calls|].
    transitivity (silence (trace t2)); [apply Ha|symmetry; apply debug_print_same_calls].
  - rewrite ?exec_seq, ?exec_bind.
    apply same_calls_trans with (snd (print pgrep_missing_msg1 t1)); [apply print_same_calls|].
    apply same_calls_trans with t1; [apply print_same_calls|].
    apply same_calls_trans with t2; [exact Ha|].
    apply same_calls_trans with (snd (print pgrep_missing_msg1 t2));
      apply same_calls_sym, print_same_calls.
  - apply same_calls_trans with t1; [apply print_same_calls|].
    apply same_calls_trans with t2; [exact Ha|apply same_calls_sym, print_same_calls].
Qed.

Lemma stop_vlc_process_debug_only_prints_witness :
  let os := const_os (Started 4242) (Output (pgrep_lines [12; 345])) PermissionError None in
  print_blind os
  /\ same_calls (tracking true 12) (tracking false 12)
  /\ same_calls (exec (stop_vlc_process os) (tracking true 12))
                (exec (stop_vlc_process os) (tracking false 12)).
Proof.
  cbv zeta.
  assert (Hb : print_blind (const_os (Started 4242) (Output (pgrep_lines [12; 345]))
                                     PermissionError None))
    by (repeat split; reflexivity).
  assert (Hs : same_calls (tracking true 12) (tracking false 12)) by (split; reflexivity).
  split; [exact Hb|]. split; [exact Hs|].
  exact (stop_vlc_process_debug_only_prints _ _ _ Hb Hs).
Defined.

Section StopUniform.

Variable os : OS.

(** The loop when [os.kill] answers every listed pid the same way. *)
Lemma signal_all_uniform (r : kill_result) (found_pids : list Z) :
  (forall tr p, In p found_pids -> os_kill os tr p = r) ->
  forall (k : nat) (s : state),
    signal_all os found_pids k s =
      ((if is_signalled r then k + length found_pids else k)%nat,
       {| DEBUG_MODE := DEBUG_MODE s;
          vlc_process := vlc_process s;
          trace := (trace s ++ flat_map (fun p => turn_events (DEBUG_MODE s) p r)
                                        found_pids)%list |}).
Proof.
  induction found_pids as [|p rest IH]; intros Hr k s.
  - cbn [signal_all ret length flat_map]. rewrite app_nil_r, Nat.add_0_r.
    destruct s, (is_signalled r); reflexivity.
  - cbn [signal_all]. unfold bind.
    assert (H1 : signal_one os k p s =
                 ((if is_signalled r then S k else k),
                  {| DEBUG_MODE := DEBUG_MODE s;
                     vlc_process := vlc_process s;
                     trace := (trace s ++ turn_events (DEBUG_MODE s) p r)%list |})).
    { unfold signal_one. pose proof (Hr (trace s) p (or_introl eq_refl)) as Hp.
      destruct s as [[] t tr]; cbn [trace] in Hp; run; rewrite Hp;
        destruct r; run; cbn [turn_events when is_signalled]; now tidy. }
    rewrite H1, IH by (intros; apply Hr; now right).
    cbn [DEBUG_MODE vlc_process trace flat_map length]. rewrite <- app_assoc.
    destruct (is_signalled r); rewrite ?Nat.add_succ_r; reflexivity.
Qed.

Lemma stop_uniform (s : state) (out : string) (r : kill_result) (p : Z) (ps : list Z) :
  os_check_output os (trace s) ["pgrep"; "vlc"] false = Output out ->
  parse_pids out = inl (p :: ps) ->
  (forall tr q, In q (p :: ps) -> os_kill os tr q = r) ->
  exec (stop_vlc_process os) s =
    {| DEBUG_MODE := DEBUG_MODE s;
       vlc_process := if is_signalled r then None else vlc_process s;
       trace := (trace s ++ [pgrep_vlc] ++ found_events (DEBUG_MODE s) (p :: ps)
                   ++ flat_map (fun q => turn_events (DEBUG_MODE s) q r) (p :: ps)
                   ++ [Print (if is_signalled r then signalled_msg (S (length ps))
                              else none_signalled_msg)])%list |}.
Proof.
  intros Hout Hpids Hr. unfold stop_vlc_process. rewrite exec_bind.
  cbn [check_output fst snd]. rewrite Hout, Hpids. unfold stop_found.
  rewrite !exec_seq, exec_bind.
  destruct s as [[] t tr]; run; rewrite (signal_all_uniform r (p :: ps) Hr);
    cbn [fst snd DEBUG_MODE vlc_process trace length Nat.add];
    destruct (is_signalled r); cbn [Nat.ltb Nat.leb]; rewrite ?exec_seq; unfold exec; run;
    rewrite ?forget_tracked_run; cbn [snd DEBUG_MODE vlc_process trace found_events when];
    rewrite <- ?app_assoc; reflexivity.
Qed.

Lemma prints_denied (found_pids : list Z) :
  prints (flat_map (fun q => turn_events false q PermissionError) found_pids)
  = map permission_msg found_pids.
Proof.
  induction found_pids as [|p rest IH]; [reflexivity|].
  cbn [flat_map map]. rewrite prints_app, IH. reflexivity.
Qed.

Lemma kills_turns (d : bool) (r : kill_result) (found_pids : list Z) :
  kills (flat_map (fun q => turn_events d q r) found_pids) = found_pids.
Proof.
  induction found_pids as [|p rest IH]; [reflexivity|].
  cbn [flat_map]. rewrite kills_app, IH. destruct r, d; reflexivity.
Qed.

Lemma turns_vanished (found_pids : list Z) :
  flat_map (fun q => turn_events false q ProcessLookupError) found_pids
  = map Kill found_pids.
Proof.
  induction found_pids as [|p rest IH]; [reflexivity|].
  cbn [flat_map map]. now rewrite IH.
Qed.

(** A failure inside the [try] other than the two named exceptions. *)
Lemma stop_parse_error (s : state) (out e : string) :
  os_check_output os (trace s) ["pgrep"; "vlc"] false = Output out ->
  parse_pids out = inr e ->
  exec (stop_vlc_process os) s =
    {| DEBUG_MODE := DEBUG_MODE s;
       vlc_process := vlc_process s;
       trace := (trace s ++ [pgrep_vlc; Print (pgrep_failed_msg e)])%list |}.
Proof.
  intros Hout Hpids. unfold stop_vlc_process. destruct s as [d t tr].
  cbn [trace] in Hout. run. rewrite Hout, Hpids. run. now tidy.
Qed.

Lemma stop_exception (s : state) (e : string) :
  os_check_output os (trace s) ["pgrep"; "vlc"] false = CheckException e ->
  exec (stop_vlc_process os) s =
    {| DEBUG_MODE := DEBUG_MODE s;
       vlc_process := vlc_process s;
       trace := (trace s ++ [pgrep_vlc; Print (pgrep_failed_msg e)])%list |}.
Proof.
  intros Hout. unfold stop_vlc_process. destruct s as [d t tr].
  cbn [trace] in Hout. run. rewrite Hout. run. now tidy.
Qed.

End StopUniform.

Lemma int_all_bad (lines : list string) (l : string) :
  In l lines -> PyStr.int l = None ->
  exists l', In l' lines /\ PyStr.int l' = None /\ int_all lines = inr (PyStr.int_error l').
Proof.
  induction lines as [|a rest IH]; intros Hin Hbad; [now elim Hin|].
  cbn [int_all]. destruct (PyStr.int a) as [z|] eqn:Ha.
  - destruct Hin as [<-|Hin]; [congruence|].
    destruct (IH Hin Hbad) as (l' & Hl' & Hb' & ->). exists l'. repeat split; auto. now right.
  - exists a. repeat split; auto. now left.
Qed.

Lemma int_all_first_bad (lines : list string) (e : string) :
  int_all lines = inr e ->
  exists good bad rest,
    lines = (good ++ bad :: rest)%list
    /\ Forall (fun g => exists z, PyStr.int g = Some z) good
    /\ PyStr.int bad = None
    /\ e = PyStr.int_error bad.
Proof.
  induction lines as [|a lines IH]; [discriminate|].
  cbn [int_all]. destruct (PyStr.int a) as [z|] eqn:Ha.
  - destruct (int_all lines) as [zs|e'] eqn:Hrest; [discriminate|]. intros [= <-].
    destruct (IH eq_refl) as (good & bad & rest & -> & Hgood & Hbad & He).
    exists (a :: good), bad, rest. repeat split; auto. constructor; eauto.
  - intros [= <-]. exists [], a, lines. repeat split; auto.
Qed.

(** X6.  The output of [pgrep] being ASCII text of at most 4300
    characters, one line of it that [int] cannot read makes the whole stop
    fail before its loop: it prints the unexpected-error message with the
    [ValueError] of the first such line, sends no signal, not even to the
    pids on the well-formed lines before it, and leaves the tracked process
    as it was. *)
Theorem stop_vlc_process_malformed_output (os : OS) (s : state) (out l : string)
        (Hout : os_check_output os (trace s) ["pgrep"; "vlc"] false = Output out)
        (Hascii : all_chars is_ascii out = true)
        (Hshort : (String.length out <= 4300)%nat)
        (Htext : PyStr.truthy (PyStr.strip out) = true)
        (Hline : In l (PyStr.split PyStr.LF (PyStr.strip out)))
        (Hbad : PyStr.int l = None) :
  kills (emitted (stop_vlc_process os) s) = []
  /\ vlc_process (exec (stop_vlc_process os) s) = vlc_process s
  /\ exists good bad rest,
       PyStr.split PyStr.LF (PyStr.strip out) = (good ++ bad :: rest)%list
       /\ Forall (fun g => exists z, PyStr.int g = Some z) good
       /\ PyStr.int bad = None
       /\ emitted (stop_vlc_process os) s
          = [pgrep_vlc;
             Print ("An unexpected error occurred while trying to find processes with 'pgrep': "
                      ++ "invalid literal for int() with base 10: "
                      ++ substring 0 200 (PyStr.repr bad))].
Proof.
  destruct (int_all_bad _ _ Hline Hbad) as (l' & _ & _ & Herr).
  destruct (int_all_first_bad _ _ Herr) as (good & bad & rest & Hsplit & Hgood & Hb & He).
  assert (Hpids : parse_pids out = inr (PyStr.int_error bad))
    by (unfold parse_pids; rewrite Htext, Herr; now f_equal).
  assert (Hem : emitted (stop_vlc_process os) s
                = [pgrep_vlc; Print (pgrep_failed_msg (PyStr.int_error bad))])
    by (apply emitted_app; now rewrite (stop_parse_error os s out _ Hout Hpids)).
  rewrite Hem, (stop_parse_error os s out _ Hout Hpids).
  split; [reflexivity|]. split; [reflexivity|]. exists good, bad, rest. auto.
Qed.

Lemma stop_vlc_process_malformed_output_witness :
  let out := ("12" ++ PyStr.nl ++ "abc" ++ PyStr.nl ++ "x" ++ PyStr.nl)%string in
  let os := const_os (Started 4242) (Output out) Signalled None in
  os_check_output os (trace (tracking false 12)) ["pgrep"; "vlc"] false = Output out
  /\ all_chars is_ascii out = true
  /\ (String.length out <= 4300)%nat
  /\ PyStr.truthy (PyStr.strip out) = true
  /\ In "x" (PyStr.split PyStr.LF (PyStr.strip out))
  /\ PyStr.int "x" = None
  /\ kills (emitted (stop_vlc_process os) (tracking false 12)) = []
  /\ emitted (stop_vlc_process os) (tracking false 12)
     = [pgrep_vlc;
        Print "An unexpected error occurred while trying to find processes with 'pgrep': invalid literal for int() with base 10: 'abc'"].
Proof.
  cbv zeta. split; [reflexivity|]. split; [reflexivity|]. split; [cbn; lia|].
  split; [reflexivity|]. split; [right; right; left; reflexivity|]. split; [reflexivity|].
  pose proof (stop_vlc_process_malformed_output
                (const_os (Started 4242)
                          (Output ("12" ++ PyStr.nl ++ "abc" ++ PyStr.nl ++ "x"
                                        ++ PyStr.nl)%string) Signalled None)
                (tracking false 12) _ "x" eq_refl eq_refl) as H.
  split; [|reflexivity].
  refine (proj1 (H _ eq_refl (or_intror (or_intror (or_introl eq_refl))) eq_refl)).
  cbn. lia.
Defined.

(** X7.  When [os.kill] is refused for every listed process, the stop
    still tries each of them in order, prints one permission message per
    process and then that none was terminated, and keeps the tracked
    process. *)
Theorem stop_vlc_process_permission_denied (os : OS) (s : state) (out : string)
        (found_pids : list Z)
        (Hout : os_check_output os (trace s) ["pgrep"; "vlc"] false = Output out)
        (Hpids : parse_pids out = inl found_pids)
        (Hsome : (0 < length found_pids)%nat)
        (Hdenied : forall tr p, In p found_pids -> os_kill os tr p = PermissionError) :
  kills (emitted (stop_vlc_process os) s) = found_pids
  /\ vlc_process (exec (stop_vlc_process os) s) = vlc_process s
  /\ (DEBUG_MODE s = false ->
      prints (emitted (stop_vlc_process os) s)
      = (map permission_msg found_pids ++ [none_signalled_msg])%list).
Proof.
  destruct found_pids as [|p ps]; [cbn in Hsome; lia|].
  pose proof (stop_uniform os s out PermissionError p ps Hout Hpids Hdenied) as Hrun.
  cbn [is_signalled] in Hrun.
  rewrite (emitted_app _ _ _ (f_equal trace Hrun)), Hrun. cbn [vlc_process].
  split; [|split; [reflexivity|]].
  - rewrite !kills_app, kills_turns. destruct (DEBUG_MODE s); cbn; now rewrite app_nil_r.
  - intros ->. cbn [found_events when app]. change (?x :: ?l) with ([x] ++ l)%list at 1.
    now rewrite !prints_app, prints_denied.
Qed.

Lemma stop_vlc_process_permission_denied_witness :
  let os := const_os (Started 4242) (Output (pgrep_lines [12; 345])) PermissionError None in
  os_check_output os (trace (tracking false 12)) ["pgrep"; "vlc"] false
    = Output (pgrep_lines [12; 345])
  /\ parse_pids (pgrep_lines [12; 345]) = inl [12; 345]
  /\ prints (emitted (stop_vlc_process os) (tracking false 12))
     = ["Permission denied to kill PID 12. Check user permissions.";
        "Permission denied to kill PID 345. Check user permissions.";
        none_signalled_msg].
Proof.
  cbv zeta. split; [reflexivity|]. split; [reflexivity|].
  refine (proj2 (proj2 (stop_vlc_process_permission_denied
                          (const_os (Started 4242) (Output (pgrep_lines [12; 345]))
                                    PermissionError None)
                          (tracking false 12) _ [12; 345] eq_refl eq_refl _ _)) eq_refl).
  - cbn. lia.
  - reflexivity.
Defined.

(** X8.  When every listed process is gone by the time it is signalled,
    the stop with [DEBUG_MODE] off says nothing about any of them: it tries
    each pid, prints only that none was terminated, and keeps the tracked
    process. *)
Theorem stop_vlc_process_vanished (os : OS) (s : state) (out : string)
        (found_pids : list Z)
        (Hout : os_check_output os (trace s) ["pgrep"; "vlc"] false = Output out)
        (Hpids : parse_pids out = inl found_pids)
        (Hsome : (0 < length found_pids)%nat)
        (Hgone : forall tr p, In p found_pids -> os_kill os tr p = ProcessLookupError)
        (Hquiet : DEBUG_MODE s = false) :
  emitted (stop_vlc_process os) s
    = (pgrep_vlc :: map Kill found_pids ++ [Print none_signalled_msg])%list
  /\ vlc_process (exec (stop_vlc_process os) s) = vlc_process s.
Proof.
  destruct found_pids as [|p ps]; [cbn in Hsome; lia|].
  pose proof (stop_uniform os s out ProcessLookupError p ps Hout Hpids Hgone) as Hrun.
  cbn [is_signalled] in Hrun. rewrite Hquiet in Hrun.
  rewrite (emitted_app _ _ _ (f_equal trace Hrun)), Hrun. cbn [vlc_process].
  split; [|reflexivity]. cbn [found_events when app]. now rewrite turns_vanished.
Qed.

Lemma stop_vlc_process_vanished_witness :
  let os := const_os (Started 4242) (Output (pgrep_lines [12; 345])) ProcessLookupError None in
  os_check_output os (trace (tracking false 12)) ["pgrep"; "vlc"] false
    = Output (pgrep_lines [12; 345])
  /\ parse_pids (pgrep_lines [12; 345]) = inl [12; 345]
  /\ emitted (stop_vlc_process os) (tracking false 12)
     = [pgrep_vlc; Kill 12; Kill 345; Print none_signalled_msg].
Proof.
  cbv zeta. split; [reflexivity|]. split; [reflexivity|].
  refine (proj1 (stop_vlc_process_vanished
                   (const_os (Started 4242) (Output (pgrep_lines [12; 345]))
                             ProcessLookupError None)
                   (tracking false 12) _ [12; 345] eq_refl eq_refl _ _ eq_refl)).
  - cbn. lia.
  - reflexivity.
Defined.

(** X9.  What a stop does to the tracked process depends only on how the
    enumeration and the signalling went, never on whether the tracked pid
    was among those found: it is forgotten when [pgrep] finds nothing
    (either way) and when every signal gets through, and kept when [pgrep]
    is missing or fails, when its output cannot be parsed, and when no
    signal gets through. *)
Theorem stop_vlc_process_tracked_after (os : OS) (s : state) :
  let after := vlc_process (exec (stop_vlc_process os) s) in
  match os_check_output os (trace s) ["pgrep"; "vlc"] false with
  | CalledProcessError _ => after = None
  | Output out =>
      match parse_pids out with
      | inl [] => after = None
      | inl (p :: ps) =>
          ((forall tr q, In q (p :: ps) -> is_signalled (os_kill os tr q) = true) ->
           after = None)
          /\ ((forall tr q, In q (p :: ps) -> is_signalled (os_kill os tr q) = false) ->
              after = vlc_process s)
      | inr _ => after = vlc_process s
      end
  | CheckFileNotFoundError | CheckException _ => after = vlc_process s
  end.
Proof.
  cbv zeta.
  destruct (os_check_output os (trace s) _ false) as [out|rc| |e] eqn:Hout.
  - destruct (parse_pids out) as [[|p ps]|e] eqn:Hpids.
    + now rewrite (stop_empty os s out Hout Hpids).
    + destruct (stop_matched os s out (p :: ps) Hout Hpids)
        as (k & evs & _ & _ & _ & Hv & _ & Hall & Hnone); [cbn [length]; lia|].
      rewrite Hv. split; intros H.
      * now rewrite (Hall H).
      * now rewrite (Hnone H).
    + now rewrite (stop_parse_error os s out e Hout Hpids).
  - now rewrite (stop_called_process_error os s rc Hout).
  - now rewrite (stop_file_not_found os s Hout).
  - now rewrite (stop_exception os s e Hout).
Qed.

(** X10.  When [pgrep] prints one process id per line, the stop signals
    exactly the processes listed, in that order; if every signal gets
    through and at least one process is listed, it tracks nothing afterwards
    and the last thing it prints is the success line, whose number is the
    decimal writing of how many were listed. *)
Theorem stop_vlc_process_signals_listed (os : OS) (s : state) (pids : list Z)
        (Hout : os_check_output os (trace s) ["pgrep"; "vlc"] false
                = Output (pgrep_lines pids)) :
  kills (emitted (stop_vlc_process os) s) = pids
  /\ ((forall tr p, In p pids -> is_signalled (os_kill os tr p) = true) ->
      (0 < length pids)%nat ->
      vlc_process (exec (stop_vlc_process os) s) = None
      /\ exists pre number,
           emitted (stop_vlc_process os) s
           = (pre ++ [Print ("Successfully sent termination signal to " ++ number
                               ++ " 'vlc' process(es).")])%list
           /\ number = NilZero.string_of_int (Z.to_int (Z.of_nat (length pids)))
           /\ PyStr.int number = Some (Z.of_nat (length pids))).
Proof.
  pose proof (parse_pids_pgrep_lines pids) as Hpids.
  destruct pids as [|p ps].
  - split; [|cbn [length]; lia].
    rewrite (emitted_app _ _ [pgrep_vlc; Print none_running_msg]); [reflexivity|].
    now rewrite (stop_empty os s _ Hout Hpids).
  - destruct (stop_matched os s _ (p :: ps) Hout Hpids)
      as (k & evs & Hem & Hk & _ & Hv & _ & Hall & _); [cbn [length]; lia|].
    split.
    + rewrite Hem, !kills_app, Hk. destruct (DEBUG_MODE s); cbn; now rewrite app_nil_r.
    + intros Hok _. rewrite (Hall Hok) in Hem, Hv. cbn [length Nat.ltb Nat.leb] in Hem, Hv.
      split; [exact Hv|]. rewrite Hem.
      exists ([pgrep_vlc] ++ found_events (DEBUG_MODE s) (p :: ps) ++ evs)%list,
        (PyStr.str_of_int (Z.of_nat (S (length ps)))).
      split; [|split].
      * unfold found_events. rewrite <- !app_assoc. reflexivity.
      * reflexivity.
      * apply int_str_of_int.
Qed.

Lemma stop_vlc_process_signals_listed_witness :
  let os := const_os (Started 4242) (Output (pgrep_lines [12; 345; 6789])) Signalled None in
  os_check_output os (trace (tracking false 4242)) ["pgrep"; "vlc"] false
    = Output (pgrep_lines [12; 345; 6789])
  /\ kills (emitted (stop_vlc_process os) (tracking false 4242)) = [12; 345; 6789]
  /\ vlc_process (exec (stop_vlc_process os) (tracking false 4242)) = None
  /\ emitted (stop_vlc_process os) (tracking false 4242)
     = [pgrep_vlc; Kill 12; Kill 345; Kill 6789;
        Print "Successfully sent termination signal to 3 'vlc' process(es)."].
Proof.
  cbv zeta. split; [reflexivity|].
  pose proof (stop_vlc_process_signals_listed
                (const_os (Started 4242) (Output (pgrep_lines [12; 345; 6789]))
                          Signalled None)
                (tracking false 4242) [12; 345; 6789] eq_refl) as [H1 H2].
  split; [exact H1|]. split; [|reflexivity]. apply H2; [reflexivity|cbn; lia].
Defined.

(** ** More about get_vlc_status *)

Lemma waits_app (a b : list event) : waits (a ++ b) = (waits a ++ waits b)%list.
Proof. apply flat_map_app. Qed.

Lemma checks_app (a b : list event) : checks (a ++ b) = (checks a ++ checks b)%list.
Proof. apply flat_map_app. Qed.

Lemma strip_line (z : Z) : PyStr.strip (PyStr.str_of_int z ++ PyStr.nl) = PyStr.str_of_int z.
Proof.
  destruct (str_of_int_chars z) as [Hc Ht]. unfold PyStr.strip.
  assert (Hl : PyStr.lstrip_by PyStr.isspace (PyStr.str_of_int z ++ PyStr.nl)
               = PyStr.str_of_int z ++ PyStr.nl).
  { destruct (PyStr.str_of_int z) as [|c s]; [discriminate Ht|].
    cbn [all_chars] in Hc. apply andb_prop in Hc as [Hc _].
    cbn [append PyStr.lstrip_by]. now rewrite (proj1 (pid_char_no_space c Hc)). }
  rewrite Hl, rstrip_by_spaces by reflexivity.
  apply rstrip_by_ends_clean, ends_clean_all with is_pid_char; [|exact Hc].
  intros c H. apply (pid_char_no_space c H).
Qed.

(** The prints of a query with [DEBUG_MODE] off and [pgrep] answering. *)
Lemma status_quiet_prints (os : OS) (s : state) (out : string) :
  (forall tr b, os_check_output os tr ["pgrep"; "-c"; "vlc"] b = Output out) ->
  DEBUG_MODE s = false ->
  prints (emitted (get_vlc_status os) s) = [summary_msg (Output out)].
Proof.
  intros Hpgrep Hd. pose proof (get_vlc_status_emitted os s) as Hem. cbv zeta in Hem.
  rewrite !Hpgrep, Hd in Hem. rewrite Hem.
  cbn [probe_events when negb app]. change (?x :: ?l) with ([x] ++ l)%list.
  now rewrite !prints_app, prints_tracked_events_quiet.
Qed.

(** X11.  With [DEBUG_MODE] off, whatever count M [pgrep -c] prints on its
    line, the query reads it back: it prints the line with M when M is
    positive, and that no processes are running otherwise. *)
Theorem get_vlc_status_reads_count (os : OS) (s : state) (M : Z)
        (Hpgrep : forall tr b, os_check_output os tr ["pgrep"; "-c"; "vlc"] b
                               = Output (PyStr.str_of_int M ++ PyStr.nl))
        (Hquiet : DEBUG_MODE s = false) :
  prints (emitted (get_vlc_status os) s)
  = [if 0 <? M then status_count_msg M else status_none_msg].
Proof.
  rewrite (status_quiet_prints os s _ Hpgrep Hquiet).
  unfold summary_msg. now rewrite strip_line, int_str_of_int.
Qed.

Lemma get_vlc_status_reads_count_witness :
  let os := const_os (Started 4242) (Output (PyStr.str_of_int 12 ++ PyStr.nl)) Signalled None in
  (forall tr b, os_check_output os tr ["pgrep"; "-c"; "vlc"] b
                = Output (PyStr.str_of_int 12 ++ PyStr.nl))
  /\ DEBUG_MODE loaded = false
  /\ prints (emitted (get_vlc_status os) loaded) = ["VLC status: 12 process(es) running."].
Proof.
  cbv zeta. split; [reflexivity|]. split; [reflexivity|].
  exact (get_vlc_status_reads_count
           (const_os (Started 4242) (Output (PyStr.str_of_int 12 ++ PyStr.nl)) Signalled None)
           loaded 12 (fun _ _ => eq_refl) eq_refl).
Defined.

(** X12.  A status query waits on the tracked child at most once, although
    the source polls it in two places: once if a process is tracked and has
    not been reaped, and not at all if nothing is tracked or the return code
    is already known. *)
Theorem get_vlc_status_waits_once (os : OS) (s : state) :
  waits (emitted (get_vlc_status os) s)
  = match vlc_process s with
    | Some p => match returncode p with None => [pid p] | Some _ => [] end
    | None => []
    end.
Proof.
  pose proof (get_vlc_status_emitted os s) as Hem. cbv zeta in Hem. rewrite Hem.
  change (?x :: ?l) with ([x] ++ l)%list. rewrite !waits_app.
  assert (Hp : forall r, waits (probe_events (DEBUG_MODE s) r) = [])
    by (intros r; destruct r, (DEBUG_MODE s); reflexivity).
  rewrite Hp. cbn [waits flat_map pgrep_count app].
  assert (Hw : forall m, waits (when (negb (DEBUG_MODE s)) [pgrep_count false; Print m]) = [])
    by (intros m; destruct (DEBUG_MODE s); reflexivity).
  rewrite Hw, app_nil_r. unfold tracked_events.
  destruct (vlc_process s) as [[p [rc|]]|], (DEBUG_MODE s); reflexivity.
Qed.

(** X13.  With [DEBUG_MODE] off a status query runs [pgrep -c] twice, the
    first time with the standard error discarded; with [DEBUG_MODE] on it
    runs it once. *)
Theorem get_vlc_status_pgrep_calls (os : OS) (s : state) :
  checks (emitted (get_vlc_status os) s)
  = (["pgrep"; "-c"; "vlc"], true)
      :: (if DEBUG_MODE s then [] else [(["pgrep"; "-c"; "vlc"], false)]).
Proof.
  pose proof (get_vlc_status_emitted os s) as Hem. cbv zeta in Hem. rewrite Hem.
  change (?x :: ?l) with ([x] ++ l)%list at 1. rewrite !checks_app.
  assert (Hp : forall r, checks (probe_events (DEBUG_MODE s) r) = [])
    by (intros r; destruct r, (DEBUG_MODE s); reflexivity).
  assert (Ht : forall tr, checks (tracked_events os tr (DEBUG_MODE s) (vlc_process s)) = [])
    by (intros tr; unfold tracked_events;
        destruct (vlc_process s) as [[p [rc|]]|], (DEBUG_MODE s); reflexivity).
  rewrite Hp, Ht. destruct (DEBUG_MODE s); reflexivity.
Qed.

(** X14.  When [pgrep] is not installed, a status query says so whether
    [DEBUG_MODE] is on or off, sends no signal, and with [DEBUG_MODE] off
    its summary is that the status cannot be determined. *)
Theorem get_vlc_status_pgrep_missing (os : OS) (s : state)
        (Hmissing : forall tr b, os_check_output os tr ["pgrep"; "-c"; "vlc"] b
                                 = CheckFileNotFoundError) :
  In status_pgrep_missing_msg (prints (emitted (get_vlc_status os) s))
  /\ kills (emitted (get_vlc_status os) s) = []
  /\ (DEBUG_MODE s = false ->
      prints (emitted (get_vlc_status os) s)
      = [status_pgrep_missing_msg; status_unknown_msg]).
Proof.
  pose proof (get_vlc_status_emitted os s) as Hem. cbv zeta in Hem.
  rewrite !Hmissing in Hem. rewrite Hem. cbn [probe_events]. split; [|split].
  - cbn. now left.
  - change (?x :: ?l) with ([x] ++ l)%list. rewrite !kills_app, kills_tracked_events.
    destruct (DEBUG_MODE s); reflexivity.
  - intros ->. cbn [when negb]. change (?x :: ?l) with ([x] ++ l)%list.
    now rewrite !prints_app, prints_tracked_events_quiet.
Qed.

Lemma get_vlc_status_pgrep_missing_witness :
  let os := const_os (Started 4242) CheckFileNotFoundError Signalled None in
  (forall tr b, os_check_output os tr ["pgrep"; "-c"; "vlc"] b = CheckFileNotFoundError)
  /\ prints (emitted (get_vlc_status os) loaded)
     = [status_pgrep_missing_msg; status_unknown_msg].
Proof.
  cbv zeta. split; [reflexivity|].
  exact (proj2 (proj2 (get_vlc_status_pgrep_missing
                         (const_os (Started 4242) CheckFileNotFoundError Signalled None)
                         loaded (fun _ _ => eq_refl))) eq_refl).
Defined.

(** ** Sequences of operations *)

Lemma start_vlc_accepted (os : OS) (s : state) (media_path : string) (f : format) :
  vlc_process s = None ->
  spawned (emitted (start_vlc os media_path (format_name f) false) s)
    = [spec_command media_path f]
  /\ ~ In (Print already_running_msg)
          (emitted (start_vlc os media_path (format_name f) false) s).
Proof.
  intros Hnone. rewrite (start_vlc_untracked_emitted os _ _ _ Hnone). split.
  - rewrite spawned_app, spawned_banner, spawned_app, spawned_after_spawn.
    destruct (DEBUG_MODE s); reflexivity.
  - rewrite !in_app_iff. intros [H|[H|H]].
    + revert H. destruct (DEBUG_MODE s); cbn [when banner app In]; [|tauto].
      intros [H|[H|[H|[H|[H|[H|[]]]]]]]; differ H.
    + destruct H as [H|[]]. discriminate H.
    + exact (already_running_not_after_spawn _ _ H).
Qed.

(** X15.  After a stop that found processes and got every signal through,
    a start is accepted whatever was tracked before: it hands its command to
    [Popen] and does not print the already-running message. *)
Theorem start_after_stop (os : OS) (s : state) (out : string) (found_pids : list Z)
        (media_path : string) (f : format)
        (Hout : os_check_output os (trace s) ["pgrep"; "vlc"] false = Output out)
        (Hpids : parse_pids out = inl found_pids)
        (Hsome : (0 < length found_pids)%nat)
        (Hall : forall tr p, In p found_pids -> is_signalled (os_kill os tr p) = true) :
  let s' := exec (stop_vlc_process os) s in
  spawned (emitted (start_vlc os media_path (format_name f) false) s')
    = [spec_command media_path f]
  /\ ~ In (Print already_running_msg)
          (emitted (start_vlc os media_path (format_name f) false) s').
Proof.
  cbv zeta. apply start_vlc_accepted.
  destruct (stop_matched os s out found_pids Hout Hpids Hsome)
    as (k & evs & _ & _ & _ & Hv & _ & Hk & _).
  rewrite Hv, (Hk Hall). destruct found_pids; [cbn in Hsome; lia|reflexivity].
Qed.

Lemma start_after_stop_witness :
  let os := const_os (Started 4243) (Output (pgrep_lines [4242])) Signalled None in
  let s' := exec (stop_vlc_process os) (tracking false 4242) in
  os_check_output os (trace (tracking false 4242)) ["pgrep"; "vlc"] false
    = Output (pgrep_lines [4242])
  /\ parse_pids (pgrep_lines [4242]) = inl [4242]
  /\ spawned (emitted (start_vlc os "/tmp/clip.mp4" "video" false) s')
     = [["cvlc"; "/tmp/clip.mp4"; "--loop"; "--no-osd"]].
Proof.
  cbv zeta. split; [reflexivity|]. split; [reflexivity|].
  refine (proj1 (start_after_stop
                   (const_os (Started 4243) (Output (pgrep_lines [4242])) Signalled None)
                   (tracking false 4242) _ [4242] "/tmp/clip.mp4" video
                   eq_refl eq_refl _ _)).
  - cbn. lia.
  - reflexivity.
Defined.

(** X16.  A status query that finds the tracked player exited makes room
    for the next one: the start that follows is accepted.  While [poll]
    reports the player running, the start that follows is refused. *)
Theorem start_after_status (os : OS) (s : state) (p : Popen)
        (media_path : string) (f : format)
        (Htracked : vlc_process s = Some p) :
  let s' := exec (get_vlc_status os) s in
  let evs := emitted (start_vlc os media_path (format_name f) false) s' in
  match poll_outcome os (trace (exec (status_probe os) s)) p with
  | Some _ => spawned evs = [spec_command media_path f]
              /\ ~ In (Print already_running_msg) evs
  | None => spawned evs = [] /\ In (Print already_running_msg) evs
  end.
Proof.
  cbv zeta.
  assert (Hv : vlc_process (exec (get_vlc_status os) s)
               = tracked_after os (trace (exec (status_probe os) s)) (vlc_process s)).
  { rewrite get_vlc_status_run, status_summary_run, status_tracked_run, status_probe_run.
    reflexivity. }
  rewrite Htracked in Hv. cbn [tracked_after] in Hv.
  destruct (poll_outcome os _ p) as [rc|].
  - now apply start_vlc_accepted.
  - rewrite (start_vlc_tracked_emitted os _ _ _ _ Hv). split.
    + rewrite spawned_app. destruct (DEBUG_MODE _); reflexivity.
    + apply in_or_app. right. now left.
Qed.

Lemma start_after_status_witness :
  let os := const_os (Started 4243) (CalledProcessError 1) Signalled (Some 0) in
  let s' := exec (get_vlc_status os) (tracking false 4242) in
  vlc_process (tracking false 4242) = Some {| pid := 4242; returncode := None |}
  /\ spawned (emitted (start_vlc os "/tmp/a.gif" "gif" false) s')
     = [spec_command "/tmp/a.gif" gif].
Proof.
  cbv zeta. split; [reflexivity|].
  exact (proj1 (start_after_status
                  (const_os (Started 4243) (CalledProcessError 1) Signalled (Some 0))
                  (tracking false 4242) _ "/tmp/a.gif" gif eq_refl)).
Defined.

(** ** main *)

(** Settles [m = already_running_msg] for a message [m] of the script that
    is another one. *)
Ltac other_msg H :=
  try (injection H as H);
  cbv [already_running_msg unknown_format_msg cvlc_missing_msg start_failed_msg
       generated_command_msg PyStr.nl PyStr.LF
       pgrep_missing_msg1 pgrep_missing_msg2 pgrep_failed_msg none_found_debug_msg
       none_running_msg signalled_msg none_signalled_msg permission_msg kill_failed_msg
       status_count_msg status_none_msg status_unknown_msg status_pgrep_missing_msg
       status_failed_msg found_some_debug_msg found_none_debug_msg tracked_active_msg
       tracked_terminated_msg untracked_msg summary_msg] in H;
  cbn [append] in H; discriminate H.

Ltac settle_in Hin :=
  repeat (destruct Hin as [Hin|Hin]); try contradiction; try discriminate Hin; other_msg Hin.

Lemma never_refused_print (m : string) (s : state) :
  m <> already_running_msg -> never_refused s -> never_refused (exec (print m) s).
Proof.
  unfold never_refused. cbn. intros Hm Hs Hin. apply in_app_or in Hin as [Hin|[Hin|[]]].
  - now apply Hs.
  - injection Hin as Hin. now apply Hm.
Qed.

Lemma never_refused_debug_print (m : string) (s : state) :
  m <> already_running_msg -> never_refused s -> never_refused (exec (debug_print m) s).
Proof.
  intros Hm Hs. destruct s as [[] t tr]; [now apply never_refused_print|exact Hs].
Qed.

Lemma never_refused_call (e : event) (d : bool) (t : option Popen) (s : state) :
  is_print e = false -> never_refused s ->
  never_refused {| DEBUG_MODE := d; vlc_process := t; trace := trace s ++ [e] |}.
Proof.
  unfold never_refused. cbn [trace]. intros He Hs Hin.
  apply in_app_or in Hin as [Hin|[Hin|[]]]; [now apply Hs|]. subst e. discriminate He.
Qed.

Lemma never_refused_forget (s : state) :
  never_refused s -> never_refused (exec forget_tracked s).
Proof. unfold exec. now rewrite forget_tracked_run. Qed.

Section NeverRefused.

Variable os : OS.

Lemma never_refused_signal_one (k : nat) (p : Z) (s : state) :
  never_refused s -> never_refused (snd (signal_one os k p s)).
Proof.
  intros Hs. change (snd (signal_one os k p s)) with (exec (signal_one os k p) s).
  unfold signal_one. rewrite exec_bind. cbn [kill fst snd].
  assert (Hk : never_refused {| DEBUG_MODE := DEBUG_MODE s; vlc_process := vlc_process s;
                                trace := trace s ++ [Kill p] |})
    by now apply never_refused_call.
  destruct (os_kill os (trace s) p); rewrite exec_seq; unfold exec at 1; cbn [ret snd];
    (apply never_refused_debug_print || apply never_refused_print); try exact Hk;
    intros H; other_msg H.
Qed.

Lemma never_refused_signal_all (found_pids : list Z) :
  forall (k : nat) (s : state),
    never_refused s -> never_refused (snd (signal_all os found_pids k s)).
Proof.
  induction found_pids as [|p rest IH]; intros k s Hs; [exact Hs|].
  cbn [signal_all]. unfold bind.
  pose proof (never_refused_signal_one k p s Hs) as H1.
  destruct (signal_one os k p s) as [k1 s1]. now apply IH.
Qed.

Lemma never_refused_stop (s : state) :
  never_refused s -> never_refused (exec (stop_vlc_process os) s).
Proof.
  intros Hs. unfold stop_vlc_process. rewrite exec_bind. cbn [check_output fst snd].
  assert (Hc : never_refused {| DEBUG_MODE := DEBUG_MODE s; vlc_process := vlc_process s;
                                trace := trace s ++ [CheckOutput ["pgrep"; "vlc"] false] |})
    by now apply never_refused_call.
  destruct (os_check_output os (trace s) _ false) as [out|rc| |e].
  - destruct (parse_pids out) as [[|p ps]|e]; unfold stop_found.
    + rewrite exec_seq. apply never_refused_forget, never_refused_print; [|exact Hc].
      intros H; other_msg H.
    + rewrite !exec_seq, exec_bind.
      match goal with
      | |- context [signal_all os ?l 0%nat ?S] =>
          assert (Hl : never_refused (snd (signal_all os l 0%nat S)))
      end.
      { apply never_refused_signal_all.
        apply never_refused_debug_print; [intros H; other_msg H|].
        apply never_refused_debug_print; [intros H; other_msg H|exact Hc]. }
      destruct (0 <? _)%nat.
      * rewrite exec_seq. apply never_refused_forget, never_refused_print; [|exact Hl].
        intros H; other_msg H.
      * apply never_refused_print; [|exact Hl]. intros H; other_msg H.
    + apply never_refused_print; [|exact Hc]. intros H; other_msg H.
  - rewrite exec_seq. apply never_refused_forget, never_refused_debug_print; [|exact Hc].
    intros H; other_msg H.
  - rewrite exec_seq. apply never_refused_print; [intros H; other_msg H|].
    apply never_refused_print; [intros H; other_msg H|exact Hc].
  - apply never_refused_print; [|exact Hc]. intros H; other_msg H.
Qed.

Lemma never_refused_status (s : state) :
  never_refused s -> never_refused (exec (get_vlc_status os) s).
Proof.
  intros Hs. unfold never_refused.
  rewrite get_vlc_status_run, status_summary_run, status_tracked_run, status_probe_run.
  cbn [trace DEBUG_MODE vlc_process]. rewrite !in_app_iff. intros [[[Hin|Hin]|Hin]|Hin].
  - now apply Hs.
  - destruct Hin as [Hin|Hin]; [discriminate Hin|].
    destruct (os_check_output os (trace s) _ true), (DEBUG_MODE s);
      cbn [probe_events when In] in Hin; settle_in Hin.
  - unfold tracked_events in Hin.
    destruct (vlc_process s) as [p|]; [destruct (poll_outcome os _ p), (returncode p)|];
      destruct (DEBUG_MODE s); cbn [app when In] in Hin; settle_in Hin.
  - destruct (DEBUG_MODE s); cbn [negb when In] in Hin; [tauto|].
    destruct Hin as [Hin|[Hin|[]]]; [discriminate Hin|].
    injection Hin as Hin. unfold summary_msg in Hin.
    destruct (os_check_output os _ _ false) as [out|rc| |e]; try other_msg Hin.
    destruct (PyStr.int (PyStr.strip out)) as [c|]; [destruct (0 <? c)|]; other_msg Hin.
Qed.

Lemma never_refused_start (s : state) (media_path media_format : string) (dry : bool) :
  vlc_process s = None -> never_refused s ->
  never_refused (exec (start_vlc os media_path media_format dry) s).
Proof.
  intros Hnone Hs. unfold never_refused.
  destruct (vlc_options media_format) as [options|] eqn:Hopt.
  - destruct (supported_format _ _ Hopt) as [f ->]. destruct dry.
    + rewrite start_vlc_dry. cbn [trace]. rewrite in_app_iff. intros [Hin|Hin]; [now apply Hs|].
      revert Hin. destruct (DEBUG_MODE s); cbn [when banner app In]; [|tauto].
      intros [H|[H|[H|[H|[H|[H|[]]]]]]]; differ H.
    + pose proof (start_vlc_accepted os s media_path f Hnone) as [_ Hacc].
      unfold emitted in Hacc.
      assert (Htr : exists evs, trace (exec (start_vlc os media_path (format_name f) false) s)
                                = (trace s ++ evs)%list).
      { rewrite (start_vlc_untracked os _ _ _ Hnone). cbn [trace]. unfold before_spawn.
        rewrite <- app_assoc. eexists. reflexivity. }
      destruct Htr as [evs Htr]. rewrite Htr, skipn_trace in Hacc. rewrite Htr, in_app_iff.
      intros [Hin|Hin]; [now apply Hs|now apply Hacc].
  - rewrite (start_vlc_unknown os _ _ _ _ Hopt). cbn [trace]. rewrite in_app_iff.
    intros [Hin|[Hin|[]]]; [now apply Hs|differ Hin].
Qed.

End NeverRefused.

Lemma main_sets_debug (os : OS) (a : args) (s : state) :
  main os a s =
    (let s0 := {| DEBUG_MODE := debug a; vlc_process := vlc_process s; trace := trace s |} in
     if existsb (String.eqb (action_or_format a)) ["gif"; "photo"; "video"] then
       match file a with
       | Some media_file =>
           if PyStr.truthy media_file then
             (start_vlc os media_file (action_or_format a) (dry_run a) ;; ret None) s0
           else (Some (file_required_msg (action_or_format a)), s0)
       | None => (Some (file_required_msg (action_or_format a)), s0)
       end
     else if String.eqb (action_or_format a) "stop" then
       if file_truthy (file a) || dry_run a then (Some stop_usage_msg, s0)
       else (stop_vlc_process os ;; ret None) s0
     else if String.eqb (action_or_format a) "status" then
       if file_truthy (file a) || dry_run a then (Some status_usage_msg, s0)
       else (get_vlc_status os ;; ret None) s0
     else (Some (unrecognized_msg (action_or_format a)), s0)).
Proof.
  unfold main. unfold bind at 1. cbn [set_debug]. cbv zeta.
  destruct (existsb _ _); [destruct (file a) as [m|]; [destruct (PyStr.truthy m)|]|];
    try reflexivity.
  destruct (_ =? "stop")%string; [destruct (_ || _); reflexivity|].
  destruct (_ =? "status")%string; [destruct (_ || _); reflexivity|reflexivity].
Qed.

Lemma then_none {A} (m : M A) (s : state) :
  fst ((m ;; ret (@None string)) s) = None /\ snd ((m ;; ret (@None string)) s) = snd (m s).
Proof. unfold bind, ret. now destruct (m s). Qed.

(** X17.  Within one run of the script no start is ever refused: [main]
    begins with nothing tracked and performs one operation, so whatever the
    arguments, the already-running message is not printed. *)
Theorem main_never_refuses (os : OS) (a : args) :
  ~ In (Print already_running_msg) (trace (exec (main os a) loaded)).
Proof.
  change (never_refused (exec (main os a) loaded)).
  unfold exec. rewrite main_sets_debug. cbv zeta. cbn [loaded vlc_process trace].
  set (s0 := {| DEBUG_MODE := debug a; vlc_process := None; trace := [] |}).
  assert (H0 : never_refused s0) by (intros []).
  destruct (existsb _ _).
  - destruct (file a) as [m|]; [destruct (PyStr.truthy m)|]; try exact H0.
    rewrite (proj2 (then_none _ s0)). now apply never_refused_start.
  - destruct (_ =? "stop")%string.
    + destruct (_ || _); [exact H0|]. rewrite (proj2 (then_none _ s0)).
      now apply never_refused_stop.
    + destruct (_ =? "status")%string; [|exact H0].
      destruct (_ || _); [exact H0|]. rewrite (proj2 (then_none _ s0)).
      now apply never_refused_status.
Qed.

(** X18.  A usage error does nothing: when [main] ends in [parser.error],
    no system call was made and nothing was printed to the standard output,
    the tracked process is untouched, and [DEBUG_MODE] holds the value of
    the debug flag, which is assigned before the dispatch. *)
Theorem main_usage_error (os : OS) (a : args) (s : state) (msg : string)
        (Herror : fst (main os a s) = Some msg) :
  trace (exec (main os a) s) = trace s
  /\ vlc_process (exec (main os a) s) = vlc_process s
  /\ DEBUG_MODE (exec (main os a) s) = debug a.
Proof.
  unfold exec. rewrite main_sets_debug in *. cbv zeta in *.
  destruct (existsb _ _).
  - destruct (file a) as [m|]; [destruct (PyStr.truthy m)|]; try (repeat split; reflexivity).
    rewrite (proj1 (then_none _ _)) in Herror. discriminate Herror.
  - destruct (_ =? "stop")%string.
    + destruct (_ || _); [repeat split; reflexivity|].
      rewrite (proj1 (then_none _ _)) in Herror. discriminate Herror.
    + destruct (_ =? "status")%string; [|repeat split; reflexivity].
      destruct (_ || _); [repeat split; reflexivity|].
      rewrite (proj1 (then_none _ _)) in Herror. discriminate Herror.
Qed.

Lemma main_usage_error_witness :
  let os := const_os (Started 4242) (Output (pgrep_lines [12])) Signalled None in
  let a := {| action_or_format := "stop"; file := None; dry_run := true; debug := true |} in
  fst (main os a loaded) = Some stop_usage_msg
  /\ trace (exec (main os a) loaded) = []
  /\ DEBUG_MODE (exec (main os a) loaded) = true.
Proof.
  cbv zeta. split; [reflexivity|].
  pose proof (main_usage_error
                (const_os (Started 4242) (Output (pgrep_lines [12])) Signalled None)
                {| action_or_format := "stop"; file := None; dry_run := true; debug := true |}
                loaded stop_usage_msg eq_refl) as (H1 & _ & H3).
  split; [exact H1|exact H3].
Defined.

(** X19.  Run from the command line with one of the three formats and a
    non-empty path, [main] returns normally with [DEBUG_MODE] set from the
    debug flag, and the commands it handed to [Popen] are: none under
    --dry-run, and otherwise the one command of that format and path. *)
Theorem main_play (os : OS) (a : args) (f : format) (media_path : string)
        (Hformat : action_or_format a = format_name f)
        (Hfile : file a = Some media_path)
        (Hpath : PyStr.truthy media_path = true) :
  fst (main os a loaded) = None
  /\ DEBUG_MODE (exec (main os a) loaded) = debug a
  /\ spawned (trace (exec (main os a) loaded))
     = (if dry_run a then [] else [spec_command media_path f]).
Proof.
  unfold exec. rewrite main_sets_debug. cbv zeta. rewrite Hformat, Hfile, Hpath.
  assert (Hin : existsb (String.eqb (format_name f)) ["gif"; "photo"; "video"] = true)
    by (destruct f; reflexivity).
  rewrite Hin. cbn [loaded vlc_process trace].
  set (s0 := {| DEBUG_MODE := debug a; vlc_process := None; trace := [] |}).
  rewrite (proj1 (then_none _ s0)), (proj2 (then_none _ s0)).
  split; [reflexivity|]. fold (exec (start_vlc os media_path (format_name f) (dry_run a)) s0).
  destruct (dry_run a).
  - rewrite start_vlc_dry. split; [reflexivity|]. cbn [trace DEBUG_MODE s0 app].
    destruct (debug a); reflexivity.
  - rewrite (start_vlc_untracked os media_path f s0 eq_refl). split; [reflexivity|].
    cbn [trace]. unfold before_spawn. subst s0. cbn [trace DEBUG_MODE].
    rewrite app_nil_l, !spawned_app, spawned_banner, spawned_after_spawn.
    destruct (debug a); reflexivity.
Qed.

Lemma main_play_witness :
  let os := const_os (Started 4242) (CalledProcessError 1) Signalled None in
  let a := {| action_or_format := "photo"; file := Some "/tmp/p.jpg";
              dry_run := false; debug := false |} in
  action_or_format a = format_name photo
  /\ file a = Some "/tmp/p.jpg"
  /\ PyStr.truthy "/tmp/p.jpg" = true
  /\ spawned (trace (exec (main os a) loaded))
     = [["cvlc"; "/tmp/p.jpg"; "--play-and-pause"; "--no-osd"]].
Proof.
  cbv zeta. split; [reflexivity|]. split; [reflexivity|]. split; [reflexivity|].
  exact (proj2 (proj2 (main_play
                         (const_os (Started 4242) (CalledProcessError 1) Signalled None)
                         {| action_or_format := "photo"; file := Some "/tmp/p.jpg";
                            dry_run := false; debug := false |}
                         photo "/tmp/p.jpg" eq_refl eq_refl eq_refl))).
Defined.

(** X20.  To [main] an empty path is no path: with the file argument given
    as the empty string it behaves, for every action, exactly as with the
    argument left out.  A format is then refused for want of a file, while
    stop and status go ahead. *)
Theorem main_empty_file (os : OS) (a : args) (s : state)
        (Hempty : file a = Some "") :
  main os a s
  = main os {| action_or_format := action_or_format a; file := None;
               dry_run := dry_run a; debug := debug a |} s
  /\ forall f, action_or_format a = format_name f ->
               fst (main os a s) = Some (file_required_msg (format_name f)).
Proof.
  rewrite !main_sets_debug. cbv zeta. cbn [action_or_format file dry_run debug].
  rewrite Hempty. cbn [PyStr.truthy file_truthy]. split; [reflexivity|].
  intros f ->. now destruct f.
Qed.

Lemma main_empty_file_witness :
  let os := const_os (Started 4242) (Output (pgrep_lines [12])) Signalled None in
  let a := {| action_or_format := "stop"; file := Some ""; dry_run := false; debug := false |} in
  file a = Some ""
  /\ kills (trace (exec (main os a) loaded)) = [12].
Proof.
  cbv zeta. split; [reflexivity|].
  pose proof (main_empty_file
                (const_os (Started 4242) (Output (pgrep_lines [12])) Signalled None)
                {| action_or_format := "stop"; file := Some ""; dry_run := false;
                   debug := false |} loaded eq_refl) as [H _].
  unfold exec. rewrite H. reflexivity.
Defined.

(** ** The count a stop reports *)



